(** * Leave-balance and salary ledgers of the employee management backend

    A shallow embedding of [class LeaveService]
    ([src/service/leave.service.ts]), [class SalaryService] (the third
    unit of [src/constant/env.constant.ts]), and the three Mongoose
    models they persist ([src/model/leave.model.ts],
    [src/model/leaveBalance.model.ts], [src/model/salary.model.ts]).

    Conventions of the embedding.
    - JavaScript numbers are rationals ([Q]) with exact arithmetic; the
      code never divides by zero (the proration is guarded), so no
      non-finite value arises.  Equality of numbers is [Qeq].
    - Dates are millisecond timestamps ([Z]).  The two calendar
      functions of the runtime that the services call
      ([Date.prototype.getFullYear], [setHours(0,0,0,0)]) depend on the
      process time zone and are taken from the environment [Env].
    - Collections are finite maps.  The unique index of a collection is
      its key: leave balances are keyed by (userId, year).
    - A service call is a function of the environment and the store that
      returns its outcome together with the store it leaves behind: a
      call that throws keeps every write it had already made, as there
      are no transactions in the source.
    - [save] and [create] of the ODM validate the in-memory document
      against the declared schema validators first, then run the
      [pre('save')] hooks of the schema, then write.  Values assigned in
      a hook are therefore written without being validated. *)

From Stdlib Require Import ZArith QArith Qround String List Bool Lia Lqa.
From stdpp Require Import gmap strings.

#[local] Open Scope Z_scope.

(** ** Numbers *)

Definition Qlt_bool (a b : Q) : bool := negb (Qle_bool b a).

(** [Math.round]: the nearest integer, halves towards plus infinity. *)
Definition Math_round (x : Q) : Z := Qfloor (x + (1 # 2))%Q.

(** [Math.round(x * 100) / 100] *)
Definition round2 (x : Q) : Q := (inject_Z (Math_round (x * 100)) / 100)%Q.

(** [Math.ceil(a / b)] on integers, [b] positive. *)
Definition ceilDiv (a b : Z) : Z := - ((- a) / b).

Definition msPerDay : Z := 1000 * 60 * 60 * 24.

(** [x || 0] on an optional number. *)
Definition orZero (x : option Q) : Q := default 0%Q x.

(** Truthiness of an optional string: absent and empty are falsy. *)
Definition truthy (s : option string) : bool :=
  match s with
  | Some EmptyString | None => false
  | Some _ => true
  end.

Definition ObjectId := string.

(** ** Errors *)

Inductive Failure :=
| NotFoundError      (* util/apiError: 404 *)
| BadRequestError    (* util/apiError: 400 *)
| ForbiddenError     (* util/apiError: 403 *)
| TypeError          (* property access on undefined *)
| ValidationError    (* a schema validator refused the document *)
| HookError          (* a pre('save') hook called next(err) *)
| MongoError.        (* the store refused the write *)

(** The business-rule errors of the error taxonomy. *)
Definition businessError (e : Failure) : bool :=
  match e with
  | NotFoundError | BadRequestError | ForbiddenError => true
  | _ => false
  end.

(** ** model/leave.model.ts *)

Module Leave.

Inductive LeaveType := casual | sick | paid | unpaid | maternity | paternity.
Inductive Status := pending | approved | rejected | cancelled.
Inductive HalfDayPeriod := first_half | second_half.

(** [_id] is the key of the collection. *)
Record t := mk {
  userId : ObjectId;
  leaveType : LeaveType;
  startDate : Z;
  endDate : Z;
  totalDays : Q;
  reason : string;
  status : Status;
  reviewedBy : option ObjectId;
  reviewedAt : option Z;
  reviewRemarks : option string;
  attachments : list string;
  isHalfDay : bool;
  halfDayPeriod : option HalfDayPeriod
}.

Definition status_eqb (a b : Status) : bool :=
  match a, b with
  | pending, pending | approved, approved
  | rejected, rejected | cancelled, cancelled => true
  | _, _ => false
  end.

Definition isUnpaid (ty : LeaveType) : bool :=
  match ty with unpaid => true | _ => false end.

Definition set_status (st : Status) (l : t) : t :=
  mk (userId l) (leaveType l) (startDate l) (endDate l) (totalDays l)
     (reason l) st (reviewedBy l) (reviewedAt l) (reviewRemarks l)
     (attachments l) (isHalfDay l) (halfDayPeriod l).

Definition set_review (by_ : ObjectId) (at_ : Z) (remarks : option string) (l : t) : t :=
  mk (userId l) (leaveType l) (startDate l) (endDate l) (totalDays l)
     (reason l) (status l) (Some by_) (Some at_) remarks
     (attachments l) (isHalfDay l) (halfDayPeriod l).

Definition set_totalDays (d : Q) (l : t) : t :=
  mk (userId l) (leaveType l) (startDate l) (endDate l) d
     (reason l) (status l) (reviewedBy l) (reviewedAt l) (reviewRemarks l)
     (attachments l) (isHalfDay l) (halfDayPeriod l).

(** The day count both [applyLeave] and the second hook compute. *)
Definition calcTotalDays (half : bool) (start end_ : Z) : Q :=
  if half then (1 # 2)%Q
  else inject_Z (ceilDiv (Z.abs (end_ - start)) msPerDay + 1).

(** Schema validators: [totalDays] min 0.5, [reason] of 10 to 500
    characters (the [trim] setter is not modelled: reasons are stored
    as given). *)
Definition validate (l : t) : bool :=
  Qle_bool (1 # 2) (totalDays l)
  && (10 <=? Z.of_nat (String.length (reason l)))
  && (Z.of_nat (String.length (reason l)) <=? 500).

(** The two [pre('save')] hooks, in registration order: the date check,
    then the recomputation of [totalDays]. *)
Definition preSave (l : t) : Failure + t :=
  if endDate l <? startDate l then inl HookError
  else inr (set_totalDays (calcTotalDays (isHalfDay l) (startDate l) (endDate l)) l).

End Leave.

(** ** model/leaveBalance.model.ts *)

Module LeaveBalance.

Record Counter := mkCounter { total : Q; used : Q; remaining : Q }.

Record CarryForward := mkCarry { cfCasual : Q; cfSick : Q; cfPaid : Q }.

(** [userId] and [year] are the key of the collection. *)
Record t := mk {
  casual : Counter;
  sick : Counter;
  paid : Counter;
  unpaidUsed : Q;
  carryForward : CarryForward
}.

(** The keys [balanceKey] may take: the fields of the document that
    hold a [Counter]. *)
Inductive Key := kCasual | kSick | kPaid.

Definition get (k : Key) (b : t) : Counter :=
  match k with kCasual => casual b | kSick => sick b | kPaid => paid b end.

Definition set (k : Key) (c : Counter) (b : t) : t :=
  match k with
  | kCasual => mk c (sick b) (paid b) (unpaidUsed b) (carryForward b)
  | kSick => mk (casual b) c (paid b) (unpaidUsed b) (carryForward b)
  | kPaid => mk (casual b) (sick b) c (unpaidUsed b) (carryForward b)
  end.

Definition set_used (u : Q) (c : Counter) : Counter :=
  mkCounter (total c) u (remaining c).

(** Schema defaults, as [create({userId, year})] fills them in. *)
Definition defaults : t :=
  mk (mkCounter 12 0 12) (mkCounter 10 0 10) (mkCounter 15 0 15) 0 (mkCarry 0 0 0).

Definition validCounter (c : Counter) : bool :=
  Qle_bool 0 (total c) && Qle_bool 0 (used c) && Qle_bool 0 (remaining c).

(** Schema validators: [year] min 2020, every counter min 0. *)
Definition validate (year : Z) (b : t) : bool :=
  (2020 <=? year)
  && validCounter (casual b) && validCounter (sick b) && validCounter (paid b)
  && Qle_bool 0 (unpaidUsed b)
  && Qle_bool 0 (cfCasual (carryForward b))
  && Qle_bool 0 (cfSick (carryForward b))
  && Qle_bool 0 (cfPaid (carryForward b)).

Definition recompute (c : Counter) : Counter :=
  mkCounter (total c) (used c) (total c - used c).

(** [pre('save')]: "Update remaining leaves before saving". *)
Definition preSave (b : t) : t :=
  mk (recompute (casual b)) (recompute (sick b)) (recompute (paid b))
     (unpaidUsed b) (carryForward b).

(** [remaining == total - used] on the three paid leave types. *)
Definition consistent (b : t) : Prop :=
  forall k, remaining (get k b) = (total (get k b) - used (get k b))%Q.

End LeaveBalance.

(** ** model/salary.model.ts *)

Module Salary.

Inductive Status := pending | processed | paid | on_hold.
Inductive PaymentMethod := bank_transfer | cheque | cash.

Record SalaryStructure := mkStructure {
  basic : Q;
  hra : Q;
  medicalAllowance : option Q;
  transportAllowance : option Q;
  otherAllowances : option Q;
  bonus : option Q;
  providentFund : option Q;
  professionalTax : option Q;
  incomeTax : option Q;
  otherDeductions : option Q
}.

(** [_id] is the key of the collection. *)
Record t := mk {
  userId : ObjectId;
  month : Z;
  year : Z;
  structure : SalaryStructure;
  grossSalary : Q;
  totalDeductions : Q;
  netSalary : Q;
  status : Status;
  creditDate : option Z;
  actualCreditDate : option Z;
  paymentMethod : option PaymentMethod;
  transactionId : option string;
  remarks : option string;
  workingDays : Q;
  presentDays : Q;
  leaveDays : Q;
  absentDays : Q;
  isProrated : bool;
  createdBy : ObjectId;
  processedBy : option ObjectId;
  processedAt : option Z
}.

Definition status_eqb (a b : Status) : bool :=
  match a, b with
  | pending, pending | processed, processed | paid, paid | on_hold, on_hold => true
  | _, _ => false
  end.

Definition set_status (st : Status) (s : t) : t :=
  mk (userId s) (month s) (year s) (structure s) (grossSalary s)
     (totalDeductions s) (netSalary s) st (creditDate s) (actualCreditDate s)
     (paymentMethod s) (transactionId s) (remarks s) (workingDays s)
     (presentDays s) (leaveDays s) (absentDays s) (isProrated s) (createdBy s)
     (processedBy s) (processedAt s).

Definition set_processed (by_ : ObjectId) (at_ : Z) (s : t) : t :=
  mk (userId s) (month s) (year s) (structure s) (grossSalary s)
     (totalDeductions s) (netSalary s) (status s) (creditDate s) (actualCreditDate s)
     (paymentMethod s) (transactionId s) (remarks s) (workingDays s)
     (presentDays s) (leaveDays s) (absentDays s) (isProrated s) (createdBy s)
     (Some by_) (Some at_).

Definition set_payment (pm : PaymentMethod) (tx : option string) (credit : Z)
    (rem : option string) (s : t) : t :=
  mk (userId s) (month s) (year s) (structure s) (grossSalary s)
     (totalDeductions s) (netSalary s) (status s) (creditDate s) (Some credit)
     (Some pm) tx rem (workingDays s)
     (presentDays s) (leaveDays s) (absentDays s) (isProrated s) (createdBy s)
     (processedBy s) (processedAt s).

Definition set_amounts (gross ded net : Q) (s : t) : t :=
  mk (userId s) (month s) (year s) (structure s) gross
     ded net (status s) (creditDate s) (actualCreditDate s)
     (paymentMethod s) (transactionId s) (remarks s) (workingDays s)
     (presentDays s) (leaveDays s) (absentDays s) (isProrated s) (createdBy s)
     (processedBy s) (processedAt s).

(** The fields [updateSalary] may overwrite. *)
Definition set_editable (st : SalaryStructure) (wd pd ld ad : Q) (pro : bool)
    (credit : option Z) (rem : option string) (s : t) : t :=
  mk (userId s) (month s) (year s) st (grossSalary s)
     (totalDeductions s) (netSalary s) (status s) credit (actualCreditDate s)
     (paymentMethod s) (transactionId s) rem wd pd ld ad pro (createdBy s)
     (processedBy s) (processedAt s).

(** Schema defaults of the structure sub-document: absent optional
    components are stored as 0. *)
Definition withDefaults (st : SalaryStructure) : SalaryStructure :=
  mkStructure (basic st) (hra st)
    (Some (orZero (medicalAllowance st))) (Some (orZero (transportAllowance st)))
    (Some (orZero (otherAllowances st))) (Some (orZero (bonus st)))
    (Some (orZero (providentFund st))) (Some (orZero (professionalTax st)))
    (Some (orZero (incomeTax st))) (Some (orZero (otherDeductions st))).

Definition gross (st : SalaryStructure) : Q :=
  (basic st + hra st + orZero (medicalAllowance st) + orZero (transportAllowance st)
   + orZero (otherAllowances st) + orZero (bonus st))%Q.

Definition deductions (st : SalaryStructure) : Q :=
  (orZero (providentFund st) + orZero (professionalTax st) + orZero (incomeTax st)
   + orZero (otherDeductions st))%Q.

(** [pre('save')]: "Auto-calculate gross, deductions, and net salary
    before saving". *)
Definition preSave (s : t) : t :=
  let grossSalary' := gross (structure s) in
  let totalDeductions' := deductions (structure s) in
  let netAmount := (grossSalary' - totalDeductions')%Q in
  let netAmount' :=
    if isProrated s && Qlt_bool 0 (workingDays s)
    then ((netAmount / workingDays s) * presentDays s)%Q
    else netAmount in
  set_amounts grossSalary' totalDeductions' (round2 netAmount') s.

Definition nonneg (x : option Q) : bool := Qle_bool 0 (orZero x).

Definition validStructure (st : SalaryStructure) : bool :=
  Qle_bool 0 (basic st) && Qle_bool 0 (hra st)
  && nonneg (medicalAllowance st) && nonneg (transportAllowance st)
  && nonneg (otherAllowances st) && nonneg (bonus st)
  && nonneg (providentFund st) && nonneg (professionalTax st)
  && nonneg (incomeTax st) && nonneg (otherDeductions st).

(** Schema validators: the [min]/[max] bounds of the numeric paths. *)
Definition validate (s : t) : bool :=
  (1 <=? month s) && (month s <=? 12) && (2020 <=? year s)
  && validStructure (structure s)
  && Qle_bool 0 (grossSalary s) && Qle_bool 0 (totalDeductions s)
  && Qle_bool 0 (netSalary s)
  && Qle_bool 0 (workingDays s) && Qle_bool (workingDays s) 31
  && Qle_bool 0 (presentDays s) && Qle_bool (presentDays s) 31
  && Qle_bool 0 (leaveDays s) && Qle_bool 0 (absentDays s).

End Salary.

(** ** The other collections *)

(** The two fields of a user that [populate('userId', 'email displayName')]
    selects. *)
Record User := mkUser { email : string; displayName : string }.

Record AuditLog := mkAudit {
  auditUserId : ObjectId;
  performedBy : ObjectId;
  action : string;
  module : string;
  entityId : ObjectId
}.

(** The payload of [emailService.sendSalaryPaidEmail]. *)
Record SalaryPaidEmail := mkEmail {
  emailTo : string;
  emailName : string;
  emailMonth : Z;
  emailYear : Z;
  emailNetSalary : Q;
  emailGrossSalary : Q;
  emailTotalDeductions : Q;
  emailCreditDate : option Z
}.

(** ** Store and environment *)

Record Store := mkStore {
  leaves : gmap ObjectId Leave.t;
  leaveBalances : gmap (ObjectId * Z) LeaveBalance.t;
  salaries : gmap ObjectId Salary.t;
  users : gmap ObjectId User;
  auditLogs : list AuditLog;
  outbox : list SalaryPaidEmail
}.

(** What a call reads from outside the store: the clock, the time zone
    of the process, whether the audit collection accepts a write, and the
    identifier the driver mints for a document the call creates. *)
Record Env := mkEnv {
  now : Z;
  startOfDay : Z -> Z;
  getFullYear : Z -> Z;
  auditUp : bool;
  newId : ObjectId
}.

(** ** Calls as state and error passing *)

Definition M (A : Type) : Type := Env -> Store -> (Failure + A) * Store.

Definition ret {A} (a : A) : M A := fun _ s => (inr a, s).

Definition throw {A} (e : Failure) : M A := fun _ s => (inl e, s).

Definition bind {A B} (m : M A) (k : A -> M B) : M B :=
  fun env s =>
    match m env s with
    | (inl e, s') => (inl e, s')
    | (inr a, s') => k a env s'
    end.

Definition ask : M Env := fun env s => (inr env, s).
Definition get : M Store := fun _ s => (inr s, s).
Definition put (s : Store) : M unit := fun _ _ => (inr tt, s).

Notation "x <- m ;; k" := (bind m (fun x => k))
  (at level 100, m at next level, right associativity).
Notation "m ;;; k" := (bind m (fun _ => k))
  (at level 100, right associativity).

(** [if (c) throw e] *)
Definition throwIf (c : bool) (e : Failure) : M unit :=
  if c then throw e else ret tt.

(** ** The ODM operations the services call *)

Definition set_leaves (m : gmap ObjectId Leave.t) (s : Store) : Store :=
  mkStore m (leaveBalances s) (salaries s) (users s) (auditLogs s) (outbox s).

Definition set_leaveBalances (m : gmap (ObjectId * Z) LeaveBalance.t) (s : Store) : Store :=
  mkStore (leaves s) m (salaries s) (users s) (auditLogs s) (outbox s).

Definition set_salaries (m : gmap ObjectId Salary.t) (s : Store) : Store :=
  mkStore (leaves s) (leaveBalances s) m (users s) (auditLogs s) (outbox s).

Definition set_auditLogs (l : list AuditLog) (s : Store) : Store :=
  mkStore (leaves s) (leaveBalances s) (salaries s) (users s) l (outbox s).

Definition set_outbox (l : list SalaryPaidEmail) (s : Store) : Store :=
  mkStore (leaves s) (leaveBalances s) (salaries s) (users s) (auditLogs s) l.

(** The two steps that precede the write of a leave document:
    validation, then the hooks. *)
Definition leavePrepare (l : Leave.t) : M Leave.t :=
  throwIf (negb (Leave.validate l)) ValidationError ;;;
  match Leave.preSave l with
  | inl e => throw e
  | inr l' => ret l'
  end.

(** [leave.save()] on the loaded document [id]. *)
Definition leaveSave (id : ObjectId) (l : Leave.t) : M Leave.t :=
  l' <- leavePrepare l ;;
  s <- get ;;
  put (set_leaves (<[id := l']> (leaves s)) s) ;;;
  ret l'.

(** [leaveModel.create(doc)]: a [save] of a new document under the
    identifier the driver mints; the insert is refused by the unique
    index on [_id] when that identifier is taken. *)
Definition leaveCreate (l : Leave.t) : M (ObjectId * Leave.t) :=
  env <- ask ;;
  l' <- leavePrepare l ;;
  s <- get ;;
  match leaves s !! newId env with
  | Some _ => throw MongoError
  | None =>
      put (set_leaves (<[newId env := l']> (leaves s)) s) ;;;
      ret (newId env, l')
  end.

(** [leaveBalance.save()] on the document of (userId, year). *)
Definition balanceSave (key : ObjectId * Z) (b : LeaveBalance.t) : M LeaveBalance.t :=
  throwIf (negb (LeaveBalance.validate (snd key) b)) ValidationError ;;;
  s <- get ;;
  put (set_leaveBalances (<[key := LeaveBalance.preSave b]> (leaveBalances s)) s) ;;;
  ret (LeaveBalance.preSave b).

(** [leaveBalanceModel.create({userId, year})] *)
Definition balanceCreate (key : ObjectId * Z) : M LeaveBalance.t :=
  balanceSave key LeaveBalance.defaults.

(** [salary.save()] on the loaded document [id]. *)
Definition salarySave (id : ObjectId) (x : Salary.t) : M Salary.t :=
  throwIf (negb (Salary.validate x)) ValidationError ;;;
  s <- get ;;
  put (set_salaries (<[id := Salary.preSave x]> (salaries s)) s) ;;;
  ret (Salary.preSave x).

(** [salaryModel.create(doc)] *)
Definition salaryCreate (x : Salary.t) : M (ObjectId * Salary.t) :=
  env <- ask ;;
  throwIf (negb (Salary.validate x)) ValidationError ;;;
  s <- get ;;
  match salaries s !! newId env with
  | Some _ => throw MongoError
  | None =>
      put (set_salaries (<[newId env := Salary.preSave x]> (salaries s)) s) ;;;
      ret (newId env, Salary.preSave x)
  end.

(** [salary.deleteOne()] *)
Definition salaryDelete (id : ObjectId) : M unit :=
  s <- get ;; put (set_salaries (delete id (salaries s)) s).

(** [auditLogModel.create(entry)], awaited by the services without a
    handler: a refused write throws. *)
Definition auditCreate (a : AuditLog) : M unit :=
  env <- ask ;;
  if auditUp env
  then s <- get ;; put (set_auditLogs (auditLogs s ++ [a]) s)
  else throw MongoError.

(** [emailService.sendSalaryPaidEmail]: the mail is handed to the
    transport; a transport error is caught and logged inside. *)
Definition sendSalaryPaidEmail (m : SalaryPaidEmail) : M unit :=
  s <- get ;; put (set_outbox (outbox s ++ [m]) s).

(** ** class LeaveService, service/leave.service.ts *)

Module LeaveService.

(** [leaveBalance[balanceKey]]: the balance document has a counter for
    three of the leave types only; for any other key the access yields
    [undefined].  Every use is guarded by [leaveType !== 'unpaid']. *)
Definition balanceKey (ty : Leave.LeaveType) : option LeaveBalance.Key :=
  match ty with
  | Leave.casual => Some LeaveBalance.kCasual
  | Leave.sick => Some LeaveBalance.kSick
  | Leave.paid => Some LeaveBalance.kPaid
  | Leave.unpaid | Leave.maternity | Leave.paternity => None
  end.

(** The filter of the overlap query:
    [{userId, status: {$in: ['pending','approved']},
      $or: [{startDate: {$lte: end}, endDate: {$gte: start}}]}] *)
Definition overlaps (userId : ObjectId) (start end_ : Z) (l : Leave.t) : bool :=
  String.eqb (Leave.userId l) userId
  && (Leave.status_eqb (Leave.status l) Leave.pending
      || Leave.status_eqb (Leave.status l) Leave.approved)
  && (Leave.startDate l <=? end_)
  && (start <=? Leave.endDate l).

Definition overlappingLeave (userId : ObjectId) (start end_ : Z) (s : Store) : bool :=
  bool_decide (map_Exists (fun _ l => overlaps userId start end_ l = true) (leaves s)).

(** [leaveBalance[balanceKey].used = u; await leaveBalance.save()] *)
Definition writeUsed (key : ObjectId * Z) (ty : Leave.LeaveType)
    (f : Q -> Q) (b : LeaveBalance.t) : M unit :=
  match balanceKey ty with
  | None => throw TypeError
  | Some k =>
      let c := LeaveBalance.get k b in
      balanceSave key (LeaveBalance.set k (LeaveBalance.set_used (f (LeaveBalance.used c)) c) b) ;;;
      ret tt
  end.

Definition applyLeave (userId : ObjectId) (leaveType : Leave.LeaveType)
    (startDate endDate : Z) (reason : string) (isHalfDay : bool)
    (halfDayPeriod : option Leave.HalfDayPeriod)
    (attachments : option (list string)) : M (ObjectId * Leave.t) :=
  env <- ask ;;
  let start := startDate in
  let end_ := endDate in
  let today := startOfDay env (now env) in
  throwIf (start <? today) BadRequestError ;;;
  throwIf (end_ <? start) BadRequestError ;;;
  totalDays <-
    (if isHalfDay
     then throwIf (negb (bool_decide (is_Some halfDayPeriod))) BadRequestError ;;;
          ret (1 # 2)%Q
     else ret (inject_Z (ceilDiv (Z.abs (end_ - start)) msPerDay + 1))) ;;
  s <- get ;;
  throwIf (overlappingLeave userId start end_ s) BadRequestError ;;;
  (if negb (Leave.isUnpaid leaveType)
   then
     let currentYear := getFullYear env (now env) in
     leaveBalance <-
       match leaveBalances s !! (userId, currentYear) with
       | Some b => ret b
       | None => balanceCreate (userId, currentYear)
       end ;;
     match balanceKey leaveType with
     | None => throw TypeError
     | Some k =>
         throwIf (Qlt_bool (LeaveBalance.remaining (LeaveBalance.get k leaveBalance)) totalDays)
                 BadRequestError
     end
   else ret tt) ;;;
  leave <- leaveCreate
    (Leave.mk userId leaveType start end_ totalDays reason Leave.pending
       None None None (default [] attachments) isHalfDay
       (if isHalfDay then halfDayPeriod else None)) ;;
  auditCreate (mkAudit userId userId "LEAVE_APPLIED" "leave" (fst leave)) ;;;
  ret leave.

Definition getLeaveBalance (userId : ObjectId) (year : option Z) : M LeaveBalance.t :=
  env <- ask ;;
  let targetYear :=
    match year with
    | Some y => if y =? 0 then getFullYear env (now env) else y
    | None => getFullYear env (now env)
    end in
  s <- get ;;
  match leaveBalances s !! (userId, targetYear) with
  | Some b => ret b
  | None => balanceCreate (userId, targetYear)
  end.

Definition approveLeave (leaveId reviewerId : ObjectId) (remarks : option string) : M Leave.t :=
  env <- ask ;;
  s <- get ;;
  match leaves s !! leaveId with
  | None => throw NotFoundError
  | Some leave =>
      throwIf (negb (Leave.status_eqb (Leave.status leave) Leave.pending)) BadRequestError ;;;
      leave <- leaveSave leaveId
        (Leave.set_review reviewerId (now env)
           (if truthy remarks then remarks else Leave.reviewRemarks leave)
           (Leave.set_status Leave.approved leave)) ;;
      (if negb (Leave.isUnpaid (Leave.leaveType leave))
       then
         let year := getFullYear env (Leave.startDate leave) in
         s' <- get ;;
         match leaveBalances s' !! (Leave.userId leave, year) with
         | Some leaveBalance =>
             writeUsed (Leave.userId leave, year) (Leave.leaveType leave)
               (fun u => (u + Leave.totalDays leave)%Q) leaveBalance
         | None => ret tt
         end
       else ret tt) ;;;
      auditCreate (mkAudit (Leave.userId leave) reviewerId "LEAVE_APPROVED" "leave" leaveId) ;;;
      ret leave
  end.

Definition rejectLeave (leaveId reviewerId : ObjectId) (remarks : string) : M Leave.t :=
  env <- ask ;;
  s <- get ;;
  match leaves s !! leaveId with
  | None => throw NotFoundError
  | Some leave =>
      throwIf (negb (Leave.status_eqb (Leave.status leave) Leave.pending)) BadRequestError ;;;
      leave <- leaveSave leaveId
        (Leave.set_review reviewerId (now env) (Some remarks)
           (Leave.set_status Leave.rejected leave)) ;;
      auditCreate (mkAudit (Leave.userId leave) reviewerId "LEAVE_REJECTED" "leave" leaveId) ;;;
      ret leave
  end.

Definition cancelLeave (leaveId userId : ObjectId) : M Leave.t :=
  env <- ask ;;
  s <- get ;;
  match leaves s !! leaveId with
  | None => throw NotFoundError
  | Some leave =>
      throwIf (negb (String.eqb (Leave.userId leave) userId)) ForbiddenError ;;;
      throwIf (Leave.status_eqb (Leave.status leave) Leave.cancelled) BadRequestError ;;;
      throwIf (Leave.status_eqb (Leave.status leave) Leave.rejected) BadRequestError ;;;
      (if Leave.status_eqb (Leave.status leave) Leave.approved
          && negb (Leave.isUnpaid (Leave.leaveType leave))
       then
         let year := getFullYear env (Leave.startDate leave) in
         match leaveBalances s !! (Leave.userId leave, year) with
         | Some leaveBalance =>
             writeUsed (Leave.userId leave, year) (Leave.leaveType leave)
               (fun u => (u - Leave.totalDays leave)%Q) leaveBalance
         | None => ret tt
         end
       else ret tt) ;;;
      leave <- leaveSave leaveId (Leave.set_status Leave.cancelled leave) ;;
      auditCreate (mkAudit userId userId "LEAVE_CANCELLED" "leave" leaveId) ;;;
      ret leave
  end.

End LeaveService.

(** ** class SalaryService *)

Module SalaryService.

(** [Partial<{structure, workingDays, ...}>] of [updateSalary] *)
Record UpdateData := mkUpdate {
  uStructure : option Salary.SalaryStructure;
  uWorkingDays : option Q;
  uPresentDays : option Q;
  uLeaveDays : option Q;
  uAbsentDays : option Q;
  uIsProrated : option bool;
  uCreditDate : option Z;
  uRemarks : option string
}.

Definition override (old new : option Q) : option Q :=
  match new with Some v => Some v | None => old end.

(** [{ ...salary.structure, ...updateData.structure }] *)
Definition mergeStructure (old new : Salary.SalaryStructure) : Salary.SalaryStructure :=
  Salary.mkStructure (Salary.basic new) (Salary.hra new)
    (override (Salary.medicalAllowance old) (Salary.medicalAllowance new))
    (override (Salary.transportAllowance old) (Salary.transportAllowance new))
    (override (Salary.otherAllowances old) (Salary.otherAllowances new))
    (override (Salary.bonus old) (Salary.bonus new))
    (override (Salary.providentFund old) (Salary.providentFund new))
    (override (Salary.professionalTax old) (Salary.professionalTax new))
    (override (Salary.incomeTax old) (Salary.incomeTax new))
    (override (Salary.otherDeductions old) (Salary.otherDeductions new)).

Definition samePeriod (userId : ObjectId) (month year : Z) (x : Salary.t) : bool :=
  String.eqb (Salary.userId x) userId && (Salary.month x =? month) && (Salary.year x =? year).

Definition existingSalary (userId : ObjectId) (month year : Z) (s : Store) : bool :=
  bool_decide (map_Exists (fun _ x => samePeriod userId month year x = true) (salaries s)).

(** [user && user.email && user.displayName] on the populated [userId] *)
Definition notifiable (u : option User) : option User :=
  match u with
  | Some u =>
      if negb (String.eqb (email u) "") && negb (String.eqb (displayName u) "")
      then Some u else None
  | None => None
  end.

Definition paidEmail (u : User) (x : Salary.t) (credit : option Z) : SalaryPaidEmail :=
  mkEmail (email u) (displayName u) (Salary.month x) (Salary.year x)
    (Salary.netSalary x) (Salary.grossSalary x) (Salary.totalDeductions x) credit.

Definition createSalary (userId : ObjectId) (month year : Z)
    (structure : Salary.SalaryStructure) (grossSalary totalDeductions netSalary : Q)
    (workingDays presentDays leaveDays absentDays : Q) (isProrated : bool)
    (createdById : ObjectId) (creditDate : option Z) (remarks : option string)
    : M (ObjectId * Salary.t) :=
  s <- get ;;
  throwIf (negb (bool_decide (is_Some (users s !! userId)))) NotFoundError ;;;
  throwIf (existingSalary userId month year s) BadRequestError ;;;
  throwIf (Qlt_bool workingDays (presentDays + absentDays)) BadRequestError ;;;
  salary <- salaryCreate
    (Salary.mk userId month year (Salary.withDefaults structure)
       grossSalary totalDeductions netSalary Salary.pending creditDate None None None
       (if truthy remarks then remarks else None)
       workingDays presentDays leaveDays absentDays isProrated createdById None None) ;;
  auditCreate (mkAudit userId createdById "SALARY_CREATED" "salary" (fst salary)) ;;;
  ret salary.

Definition updateSalaryStatus (salaryId : ObjectId) (status : Salary.Status)
    (updatedById : ObjectId) : M Salary.t :=
  env <- ask ;;
  s <- get ;;
  match salaries s !! salaryId with
  | None => throw NotFoundError
  | Some salary =>
      let previousStatus := Salary.status salary in
      let salary := Salary.set_status status salary in
      let salary :=
        if Salary.status_eqb status Salary.processed
        then Salary.set_processed updatedById (now env) salary
        else salary in
      salary <- salarySave salaryId salary ;;
      auditCreate (mkAudit (Salary.userId salary) updatedById
                     "SALARY_STATUS_UPDATED" "salary" salaryId) ;;;
      (if Salary.status_eqb status Salary.paid
          && negb (Salary.status_eqb previousStatus Salary.paid)
       then
         match notifiable (users s !! Salary.userId salary) with
         | Some user => sendSalaryPaidEmail (paidEmail user salary (Salary.creditDate salary))
         | None => ret tt
         end
       else ret tt) ;;;
      ret salary
  end.

Definition processSalaryPayment (salaryId : ObjectId) (paymentMethod : Salary.PaymentMethod)
    (processedById : ObjectId) (transactionId : option string)
    (actualCreditDate : option Z) (remarks : option string) : M Salary.t :=
  env <- ask ;;
  s <- get ;;
  match salaries s !! salaryId with
  | None => throw NotFoundError
  | Some salary =>
      throwIf (Salary.status_eqb (Salary.status salary) Salary.paid) BadRequestError ;;;
      let salary := Salary.set_status Salary.paid salary in
      let salary :=
        Salary.set_payment paymentMethod transactionId
          (default (now env) actualCreditDate)
          (if truthy remarks then remarks else Salary.remarks salary) salary in
      let salary := Salary.set_processed processedById (now env) salary in
      salary <- salarySave salaryId salary ;;
      auditCreate (mkAudit (Salary.userId salary) processedById
                     "SALARY_PAID" "salary" salaryId) ;;;
      match notifiable (users s !! Salary.userId salary) with
      | Some user =>
          sendSalaryPaidEmail
            (paidEmail user salary
               (match Salary.actualCreditDate salary with
                | Some d => Some d
                | None => Salary.creditDate salary
                end))
      | None => ret tt
      end ;;;
      ret salary
  end.

Definition updateSalary (salaryId : ObjectId) (updateData : UpdateData)
    (updatedById : ObjectId) : M Salary.t :=
  s <- get ;;
  match salaries s !! salaryId with
  | None => throw NotFoundError
  | Some salary =>
      throwIf (Salary.status_eqb (Salary.status salary) Salary.paid) BadRequestError ;;;
      let salary :=
        Salary.set_editable
          (match uStructure updateData with
           | Some st => mergeStructure (Salary.structure salary) st
           | None => Salary.structure salary
           end)
          (default (Salary.workingDays salary) (uWorkingDays updateData))
          (default (Salary.presentDays salary) (uPresentDays updateData))
          (default (Salary.leaveDays salary) (uLeaveDays updateData))
          (default (Salary.absentDays salary) (uAbsentDays updateData))
          (default (Salary.isProrated salary) (uIsProrated updateData))
          (match uCreditDate updateData with
           | Some d => Some d
           | None => Salary.creditDate salary
           end)
          (if truthy (uRemarks updateData) then uRemarks updateData
           else Salary.remarks salary)
          salary in
      throwIf (Qlt_bool (Salary.workingDays salary)
                 (Salary.presentDays salary + Salary.absentDays salary))
              BadRequestError ;;;
      salary <- salarySave salaryId salary ;;
      auditCreate (mkAudit (Salary.userId salary) updatedById
                     "SALARY_UPDATED" "salary" salaryId) ;;;
      ret salary
  end.

Definition deleteSalary (salaryId deletedById : ObjectId) : M string :=
  s <- get ;;
  match salaries s !! salaryId with
  | None => throw NotFoundError
  | Some salary =>
      throwIf (Salary.status_eqb (Salary.status salary) Salary.paid) BadRequestError ;;;
      salaryDelete salaryId ;;;
      auditCreate (mkAudit (Salary.userId salary) deletedById
                     "SALARY_DELETED" "salary" salaryId) ;;;
      ret "Salary record deleted successfully"%string
  end.

End SalaryService.

(** ** A concrete environment: a process running in UTC *)

(** The civil year of a timestamp (proleptic Gregorian calendar). *)
Definition utcFullYear (t : Z) : Z :=
  let z := t / msPerDay + 719468 in
  let era := z / 146097 in
  let doe := z - era * 146097 in
  let yoe := (doe - doe / 1460 + doe / 36524 - doe / 146096) / 365 in
  let doy := doe - (365 * yoe + yoe / 4 - yoe / 100) in
  let mp := (5 * doy + 2) / 153 in
  yoe + era * 400 + (if mp <? 10 then 0 else 1).

Definition utcStartOfDay (t : Z) : Z := t - t mod msPerDay.

Definition utcEnv (now : Z) (auditUp : bool) (newId : ObjectId) : Env :=
  mkEnv now utcStartOfDay utcFullYear auditUp newId.

Definition emptyStore : Store := mkStore ∅ ∅ ∅ ∅ [] [].

(** * Calls as data, and what is said of them *)

(** [post m env s Q]: the outcome of the call [m] from the store [s]
    and the store it leaves satisfy [Q]. *)
Definition post {A} (m : M A) (env : Env) (s : Store)
    (Q : Failure + A -> Store -> Prop) : Prop :=
  Q (fst (m env s)) (snd (m env s)).

(** The operations of the two ledgers, as data. *)
Inductive Call :=
| ApplyLeave (userId : ObjectId) (leaveType : Leave.LeaveType) (startDate endDate : Z)
    (reason : string) (isHalfDay : bool) (halfDayPeriod : option Leave.HalfDayPeriod)
    (attachments : option (list string))
| GetLeaveBalance (userId : ObjectId) (year : option Z)
| ApproveLeave (leaveId reviewerId : ObjectId) (remarks : option string)
| RejectLeave (leaveId reviewerId : ObjectId) (remarks : string)
| CancelLeave (leaveId userId : ObjectId)
| CreateSalary (userId : ObjectId) (month year : Z)
    (structure : Salary.SalaryStructure) (grossSalary totalDeductions netSalary : Q)
    (workingDays presentDays leaveDays absentDays : Q) (isProrated : bool)
    (createdById : ObjectId) (creditDate : option Z) (remarks : option string)
| UpdateSalaryStatus (salaryId : ObjectId) (status : Salary.Status) (updatedById : ObjectId)
| ProcessSalaryPayment (salaryId : ObjectId) (paymentMethod : Salary.PaymentMethod)
    (processedById : ObjectId) (transactionId : option string)
    (actualCreditDate : option Z) (remarks : option string)
| UpdateSalary (salaryId : ObjectId) (updateData : SalaryService.UpdateData)
    (updatedById : ObjectId)
| DeleteSalary (salaryId deletedById : ObjectId).

(** A call with its value dropped: the outcome is the error, if any. *)
Definition call (c : Call) : M unit :=
  match c with
  | ApplyLeave u ty sd ed r h hp att =>
      LeaveService.applyLeave u ty sd ed r h hp att ;;; ret tt
  | GetLeaveBalance u y => LeaveService.getLeaveBalance u y ;;; ret tt
  | ApproveLeave l r rem => LeaveService.approveLeave l r rem ;;; ret tt
  | RejectLeave l r rem => LeaveService.rejectLeave l r rem ;;; ret tt
  | CancelLeave l u => LeaveService.cancelLeave l u ;;; ret tt
  | CreateSalary u m y st g d n wd pd ld ad pro by_ cd rem =>
      SalaryService.createSalary u m y st g d n wd pd ld ad pro by_ cd rem ;;; ret tt
  | UpdateSalaryStatus i st by_ => SalaryService.updateSalaryStatus i st by_ ;;; ret tt
  | ProcessSalaryPayment i pm by_ tx cd rem =>
      SalaryService.processSalaryPayment i pm by_ tx cd rem ;;; ret tt
  | UpdateSalary i upd by_ => SalaryService.updateSalary i upd by_ ;;; ret tt
  | DeleteSalary i by_ => SalaryService.deleteSalary i by_ ;;; ret tt
  end.

(** The store a call leaves, whatever its outcome. *)
Definition exec (c : Call) (env : Env) (s : Store) : Store := snd (call c env s).

(** A sequence of calls, each in the environment it runs in. *)
Fixpoint run (cs : list (Env * Call)) (s : Store) : Store :=
  match cs with
  | [] => s
  | (env, c) :: cs' => run cs' (exec c env s)
  end.

(** Every balance of [s] is one of [s0] or satisfies the equation. *)
Definition keptOrConsistent (s0 s : Store) : Prop :=
  forall key b, leaveBalances s !! key = Some b ->
    leaveBalances s0 !! key = Some b \/ LeaveBalance.consistent b.

(** What a call that ends with a business-rule error may have written:
    nothing, or for [applyLeave] the default balance of the current year. *)
Definition businessFailureEffect (c : Call) (env : Env) (s s' : Store) : Prop :=
  match c with
  | ApplyLeave userId _ _ _ _ _ _ _ =>
      let key := (userId, getFullYear env (now env)) in
      s' = s
      \/ (leaveBalances s !! key = None
          /\ s' = set_leaveBalances
                    (<[key := LeaveBalance.preSave LeaveBalance.defaults]> (leaveBalances s)) s)
  | _ => s' = s
  end.

(** * Scenarios *)

(** 2026-01-05T00:00Z plus [n] days. *)
Definition day (n : Z) : Z := 1767571200000 + n * msPerDay.

(** The environment of a call made on [day n] with the audit collection
    up; [id] is the identifier of the document the call may create. *)
Definition envAt (n : Z) (id : ObjectId) : Env := utcEnv (day n) true id.

(** Employee [u1] has applied for three days of casual leave. *)
Definition applied3 : Store :=
  snd (LeaveService.applyLeave "u1" Leave.casual (day 1) (day 3)
         "family event" false None None (envAt 0 "l1") emptyStore).

Definition approveThenCancel : list (Env * Call) :=
  [ (envAt 0 "-", ApproveLeave "l1" "boss" None);
    (envAt 0 "-", CancelLeave "l1" "u1") ].

(** Employee [u1] has two requests of ten days of casual leave each,
    both accepted at application time against the untouched entitlement
    of twelve days; the first has been approved. *)
Definition twoTens : Store :=
  run [ (envAt 0 "a", ApplyLeave "u1" Leave.casual (day 1) (day 10)
                        "family event" false None None);
        (envAt 0 "b", ApplyLeave "u1" Leave.casual (day 21) (day 30)
                        "long journey" false None None);
        (envAt 0 "-", ApproveLeave "a" "boss" None) ]
      emptyStore.

(** The second request of [twoTens] and the balance it meets. *)
Definition requestB : Leave.t :=
  Leave.mk "u1" Leave.casual (day 21) (day 30) 10 "long journey" Leave.pending
    None None None [] false None.


(** The request of [applied3]. *)
Definition requestL1 : Leave.t :=
  Leave.mk "u1" Leave.casual (day 1) (day 3) 3 "family event" Leave.pending
    None None None [] false None.

(** One employee on the roster, and the salary structure of the March
    scenario. *)
Definition staff : Store :=
  mkStore ∅ ∅ ∅ {[ "u1"%string := mkUser "una@corp.example" "Una" ]} [] [].

Definition marchStructure : Salary.SalaryStructure :=
  Salary.mkStructure 30000 12000 (Some 2000%Q) None None None
    (Some 3600%Q) (Some 200%Q) None None.

(** The March 2025 record of [u1] has been created, then paid. *)
Definition salaried : Store :=
  run [ (envAt 0 "s1", CreateSalary "u1" 3 2025 marchStructure 44000 3800 40200
                         30 30 0 0 false "hr" None None) ] staff.

Definition paidOut : Store :=
  run [ (envAt 1 "-", ProcessSalaryPayment "s1" Salary.bank_transfer "hr"
                        (Some "TX-1"%string) None None) ] salaried.

(** * Relations between stores *)

(** What a request may become: itself, or the same request (owner, type,
    dates, reason) further along pending -> approved | rejected |
    cancelled, approved -> cancelled. *)
Definition leaveFollows (l l' : Leave.t) : Prop :=
  l' = l
  \/ (Leave.userId l' = Leave.userId l
      /\ Leave.leaveType l' = Leave.leaveType l
      /\ Leave.startDate l' = Leave.startDate l
      /\ Leave.endDate l' = Leave.endDate l
      /\ Leave.isHalfDay l' = Leave.isHalfDay l
      /\ Leave.reason l' = Leave.reason l
      /\ ((Leave.status l = Leave.pending /\ Leave.status l' <> Leave.pending)
          \/ (Leave.status l = Leave.approved /\ Leave.status l' = Leave.cancelled))).

Definition keepsRequests (m m' : gmap ObjectId Leave.t) : Prop :=
  forall id l, m !! id = Some l -> exists l', m' !! id = Some l' /\ leaveFollows l l'.

(** The parts of a balance document that no service call assigns. *)
Definition sameEntitlement (b b' : LeaveBalance.t) : Prop :=
  (forall k, LeaveBalance.total (LeaveBalance.get k b')
             = LeaveBalance.total (LeaveBalance.get k b))
  /\ LeaveBalance.unpaidUsed b' = LeaveBalance.unpaidUsed b
  /\ LeaveBalance.carryForward b' = LeaveBalance.carryForward b.

Definition keepsEntitlements (m m' : gmap (ObjectId * Z) LeaveBalance.t) : Prop :=
  forall key b, m !! key = Some b -> exists b', m' !! key = Some b' /\ sameEntitlement b b'.

(** What the hooks of the leave schema establish. *)
Definition hooked (l : Leave.t) : Prop :=
  Leave.startDate l <= Leave.endDate l
  /\ Leave.totalDays l
     = Leave.calcTotalDays (Leave.isHalfDay l) (Leave.startDate l) (Leave.endDate l).

Definition keptOrHooked (m0 m : gmap ObjectId Leave.t) : Prop :=
  forall id l, m !! id = Some l -> m0 !! id = Some l \/ hooked l.

(** The unique index of the salary collection: one record per employee
    and period. *)
Definition uniquePeriods (m : gmap ObjectId Salary.t) : Prop :=
  forall i j x y, m !! i = Some x -> m !! j = Some y ->
    Salary.userId x = Salary.userId y -> Salary.month x = Salary.month y ->
    Salary.year x = Salary.year y -> i = j.

(** The document [updateSalary] saves: the stored record with the
    provided fields assigned. *)
Definition updatedSalary (updateData : SalaryService.UpdateData) (salary : Salary.t)
    : Salary.t :=
  Salary.set_editable
    (match SalaryService.uStructure updateData with
     | Some st => SalaryService.mergeStructure (Salary.structure salary) st
     | None => Salary.structure salary
     end)
    (default (Salary.workingDays salary) (SalaryService.uWorkingDays updateData))
    (default (Salary.presentDays salary) (SalaryService.uPresentDays updateData))
    (default (Salary.leaveDays salary) (SalaryService.uLeaveDays updateData))
    (default (Salary.absentDays salary) (SalaryService.uAbsentDays updateData))
    (default (Salary.isProrated salary) (SalaryService.uIsProrated updateData))
    (match SalaryService.uCreditDate updateData with
     | Some d => Some d
     | None => Salary.creditDate salary
     end)
    (if truthy (SalaryService.uRemarks updateData)
     then SalaryService.uRemarks updateData
     else Salary.remarks salary)
    salary.

Definition noUpdate : SalaryService.UpdateData :=
  SalaryService.mkUpdate None None None None None None None None.

(** * generateBulkSalaries *)

Module Bulk.

(** "Create default salary structure" *)
Definition defaultStructure : Salary.SalaryStructure :=
  Salary.mkStructure 30000 12000 (Some 2000%Q) (Some 1500%Q) (Some 1000%Q) (Some 0%Q)
    (Some 3600%Q) (Some 200%Q) (Some 5000%Q) (Some 0%Q).

(** The [reason] of a failed entry: the literal of the loop's own
    lookup, or the message of the error [createSalary] threw. *)
Inductive Reason :=
| SalaryAlreadyExists
| ErrorMessage (e : Failure).

Record Results := mkResults {
  success : list ObjectId;
  failed : list (ObjectId * Reason)
}.

Definition pushSuccess (e : ObjectId) (r : Results) : Results :=
  mkResults (success r ++ [e]) (failed r).

Definition pushFailed (e : ObjectId) (why : Reason) (r : Results) : Results :=
  mkResults (success r) (failed r ++ [(e, why)]).

(** The environment of the [createSalary] call of one turn: the same
    clock, time zone and audit collection, and the identifier the driver
    mints in that turn. *)
Definition minting (id : ObjectId) (env : Env) : Env :=
  mkEnv (now env) (startOfDay env) (getFullYear env) (auditUp env) id.

(** The body of the loop, [try { ... } catch (error) { ... }], for one
    employee. *)
Definition turn (month year : Z) (createdById : ObjectId)
    (employee id : ObjectId) (results : Results) : M Results :=
  fun env s =>
    if SalaryService.existingSalary employee month year s
    then (inr (pushFailed employee SalaryAlreadyExists results), s)
    else
      let grossSalary := Salary.gross defaultStructure in
      let totalDeductions := Salary.deductions defaultStructure in
      let netSalary := (grossSalary - totalDeductions)%Q in
      match SalaryService.createSalary employee month year defaultStructure
              grossSalary totalDeductions netSalary 30 30 0 0 false createdById
              None None (minting id env) s with
      | (inr _, s') => (inr (pushSuccess employee results), s')
      | (inl e, s') => (inr (pushFailed employee (ErrorMessage e) results), s')
      end.

Fixpoint loop (month year : Z) (createdById : ObjectId)
    (employees : list (ObjectId * ObjectId)) (results : Results) : M Results :=
  match employees with
  | [] => ret results
  | (employee, id) :: rest =>
      results' <- turn month year createdById employee id results ;;
      loop month year createdById rest results'
  end.

(** [employees] is what the roster query returns (the active users with
    the employee role, of the department if one is given), each with the
    identifier the driver mints in the turn of that employee. *)
Definition generateBulkSalaries (month year : Z) (createdById : ObjectId)
    (employees : list (ObjectId * ObjectId)) : M Results :=
  throwIf (bool_decide (employees = [])) NotFoundError ;;;
  loop month year createdById employees (mkResults [] []).

End Bulk.

(** * Further scenarios *)

(** The request of [applied3] has been approved. *)
Definition approved3 : Store :=
  run [ (envAt 0 "-", ApproveLeave "l1" "boss" None) ] applied3.

(** The same three days of January 2026, applied for ten days earlier,
    in December 2025. *)
Definition appliedInDecember : Store :=
  snd (LeaveService.applyLeave "u1" Leave.casual (day 1) (day 3)
         "family event" false None None (envAt (-10) "l1") emptyStore).

(** The March 2025 record of [u1] is asked for twice. *)
Definition createdTwice : list (Env * Call) :=
  [ (envAt 0 "s1", CreateSalary "u1" 3 2025 marchStructure 44000 3800 40200
                     30 30 0 0 false "hr" None None);
    (envAt 1 "s2", CreateSalary "u1" 3 2025 marchStructure 44000 3800 40200
                     30 30 0 0 false "hr" None None) ].


(** Two employees, and the roster of a bulk run with the identifiers of
    its turns. *)
Definition team : Store :=
  mkStore ∅ ∅ ∅
    {[ "u1"%string := mkUser "una@corp.example" "Una";
       "u2"%string := mkUser "odo@corp.example" "Odo" ]} [] [].

Definition roster : list (ObjectId * ObjectId) :=
  [ ("u1"%string, "s1"%string); ("u2"%string, "s2"%string) ].

(** * Proofs *)

(** ** Numbers *)

Lemma Qlt_bool_iff (a b : Q) : Qlt_bool a b = true <-> (a < b)%Q.
Proof.
  unfold Qlt_bool. rewrite negb_true_iff.
  split; intros H.
  - apply Qnot_le_lt. intros Hle. apply Qle_bool_iff in Hle. congruence.
  - destruct (Qle_bool b a) eqn:E; [|reflexivity].
    apply Qle_bool_iff in E. exfalso. exact (Qlt_not_le _ _ H E).
Qed.


Lemma ceilDiv_nonneg a b : 0 <= a -> 0 < b -> 0 <= ceilDiv a b.
Proof.
  intros Ha Hb. unfold ceilDiv.
  assert (- a / b <= 0) by (apply Z.div_le_upper_bound; lia). lia.
Qed.

(** ** Reasoning about calls *)

Section PostRules.
Context {A B : Type} (env : Env) (s : Store).

Lemma post_ret (a : A) Q : Q (inr a) s -> post (ret a) env s Q.
Proof. exact id. Qed.

Lemma post_throw (e : Failure) (Q : Failure + A -> Store -> Prop) :
  Q (inl e) s -> post (throw e) env s Q.
Proof. exact id. Qed.

Lemma post_ask Q : Q (inr env) s -> post ask env s Q.
Proof. exact id. Qed.

Lemma post_get Q : Q (inr s) s -> post get env s Q.
Proof. exact id. Qed.

Lemma post_put (s' : Store) Q : Q (inr tt) s' -> post (put s') env s Q.
Proof. exact id. Qed.

Lemma post_throwIf (c : bool) (e : Failure) Q :
  (c = true -> Q (inl e) s) -> (c = false -> Q (inr tt) s) ->
  post (throwIf c e) env s Q.
Proof. destruct c; unfold post; simpl; auto. Qed.

Lemma post_bind (m : M A) (k : A -> M B) (Q : Failure + B -> Store -> Prop) :
  post m env s (fun r s' =>
    match r with
    | inl e => Q (inl e) s'
    | inr a => post (k a) env s' Q
    end) ->
  post (bind m k) env s Q.
Proof. unfold post, bind. destruct (m env s) as [[e|a] s']; simpl; auto. Qed.

End PostRules.

Ltac head_of t :=
  lazymatch t with
  | ?f _ => head_of f
  | _ => t
  end.

(** One step of symbolic execution of a call. *)
Ltac post_step :=
  lazymatch goal with
  | |- post (bind _ _) _ _ _ => apply post_bind
  | |- post (ret _) _ _ _ => apply post_ret
  | |- post (throw _) _ _ _ => apply post_throw
  | |- post ask _ _ _ => apply post_ask
  | |- post get _ _ _ => apply post_get
  | |- post (put _) _ _ _ => apply post_put
  | |- post (throwIf _ _) _ _ _ => apply post_throwIf; intros ?
  | |- post (match ?x with _ => _ end) _ _ _ => destruct x eqn:?
  | |- post (let _ := _ in _) _ _ _ => cbv zeta
  | |- post ?m _ _ _ => let h := head_of m in unfold h
  end.

Ltac post_run := repeat (post_step; cbv beta).

(** ** Schemas and hooks *)

Lemma calcTotalDays_pos half start end_ :
  (1 # 2 <= Leave.calcTotalDays half start end_)%Q.
Proof.
  unfold Leave.calcTotalDays. destruct half.
  - apply Qle_refl.
  - assert (H : 0 <= ceilDiv (Z.abs (end_ - start)) msPerDay)
      by (apply ceilDiv_nonneg; [lia | reflexivity]).
    unfold Qle. simpl. lia.
Qed.

Lemma validate_review by_ at_ rem st l :
  Leave.validate (Leave.set_review by_ at_ rem (Leave.set_status st l)) = Leave.validate l.
Proof. reflexivity. Qed.

Lemma validate_set_totalDays (d : Q) (l : Leave.t) :
  (1 # 2 <= d)%Q -> Leave.validate l = true ->
  Leave.validate (Leave.set_totalDays d l) = true.
Proof.
  unfold Leave.validate. simpl. intros Hd H.
  apply andb_prop in H as [H H2]. apply andb_prop in H as [_ H1].
  rewrite H1, H2, (proj2 (Qle_bool_iff _ _) Hd). reflexivity.
Qed.

Lemma preSave_consistent (b : LeaveBalance.t) :
  LeaveBalance.consistent (LeaveBalance.preSave b).
Proof. intros []; reflexivity. Qed.

Lemma validCounter_set_used c u :
  LeaveBalance.validCounter c = true -> (0 <= u)%Q ->
  LeaveBalance.validCounter (LeaveBalance.set_used u c) = true.
Proof.
  unfold LeaveBalance.validCounter. simpl. intros H Hu.
  apply andb_prop in H as [H H3]. apply andb_prop in H as [H1 H2].
  rewrite H1, H3. simpl. rewrite andb_true_r. now apply Qle_bool_iff.
Qed.

Lemma validate_get y b k :
  LeaveBalance.validate y b = true ->
  LeaveBalance.validCounter (LeaveBalance.get k b) = true.
Proof.
  unfold LeaveBalance.validate. intros H.
  repeat (apply andb_prop in H as [H ?]).
  destruct k; simpl; assumption.
Qed.

Lemma validate_set y b k c :
  LeaveBalance.validate y b = true ->
  LeaveBalance.validCounter c = true ->
  LeaveBalance.validate y (LeaveBalance.set k c b) = true.
Proof.
  unfold LeaveBalance.validate. intros H Hc.
  repeat (apply andb_prop in H as [H ?]).
  destruct k; simpl;
    repeat match goal with Hx : ?x = true |- context [?x] => rewrite Hx end;
    reflexivity.
Qed.

Lemma get_set k c b : LeaveBalance.get k (LeaveBalance.set k c b) = c.
Proof. destruct k; reflexivity. Qed.

Lemma get_preSave k b :
  LeaveBalance.get k (LeaveBalance.preSave b) = LeaveBalance.recompute (LeaveBalance.get k b).
Proof. destruct k; reflexivity. Qed.

Lemma validate_defaults (y : Z) : 2020 <= y -> LeaveBalance.validate y LeaveBalance.defaults = true.
Proof.
  intros H. unfold LeaveBalance.validate.
  rewrite (proj2 (Z.leb_le _ _) H). reflexivity.
Qed.

Lemma set_leaveBalances_id s : set_leaveBalances (leaveBalances s) s = s.
Proof. destruct s; reflexivity. Qed.

Lemma balanceKey_not_unpaid ty k :
  LeaveService.balanceKey ty = Some k -> Leave.isUnpaid ty = false.
Proof. destruct ty; simpl; congruence. Qed.

Lemma overlappingLeave_intro (s : Store) (userId : ObjectId) (start end_ : Z)
    (id : ObjectId) (l : Leave.t) :
  leaves s !! id = Some l ->
  LeaveService.overlaps userId start end_ l = true ->
  LeaveService.overlappingLeave userId start end_ s = true.
Proof.
  intros Hl Ho. unfold LeaveService.overlappingLeave.
  apply bool_decide_eq_true. apply map_Exists_lookup. eauto.
Qed.

(** ** The leave ledger *)

Lemma keptOrConsistent_refl s : keptOrConsistent s s.
Proof. intros key b H. now left. Qed.

Lemma keptOrConsistent_save s0 s key b :
  keptOrConsistent s0 s ->
  keptOrConsistent s0
    (set_leaveBalances (<[key := LeaveBalance.preSave b]> (leaveBalances s)) s).
Proof.
  intros H key' b'. simpl. rewrite lookup_insert. case_decide.
  - intros [= <-]. right. apply preSave_consistent.
  - apply H.
Qed.

Lemma keptOrConsistent_leaves s0 s m :
  keptOrConsistent s0 s -> keptOrConsistent s0 (set_leaves m s).
Proof. exact id. Qed.

Lemma keptOrConsistent_audit s0 s l :
  keptOrConsistent s0 s -> keptOrConsistent s0 (set_auditLogs l s).
Proof. exact id. Qed.

Lemma keptOrConsistent_salaries s0 s m :
  keptOrConsistent s0 s -> keptOrConsistent s0 (set_salaries m s).
Proof. exact id. Qed.

Lemma keptOrConsistent_outbox s0 s l :
  keptOrConsistent s0 s -> keptOrConsistent s0 (set_outbox l s).
Proof. exact id. Qed.

Create HintDb ledger.
#[local] Hint Resolve keptOrConsistent_save keptOrConsistent_leaves
  keptOrConsistent_audit keptOrConsistent_salaries keptOrConsistent_outbox : ledger.

Lemma exec_keptOrConsistent c env s0 s :
  keptOrConsistent s0 s -> keptOrConsistent s0 (exec c env s).
Proof.
  intros H.
  change (post (call c) env s (fun _ s' => keptOrConsistent s0 s')).
  destruct c; post_run; auto 6 with ledger.
Qed.

Lemma run_keptOrConsistent cs s0 s :
  keptOrConsistent s0 s -> keptOrConsistent s0 (run cs s).
Proof.
  revert s. induction cs as [|[env c] cs IH]; intros s H; simpl; [assumption|].
  apply IH, exec_keptOrConsistent, H.
Qed.

(** C1. After any sequence of ledger calls (approvals and cancellations
    among them), in whatever environments and whatever their outcomes,
    every leave balance in the store either is a document of the initial
    store that no call has written, or satisfies
    [remaining = total - used] on each of casual, sick and paid: every
    write of a balance goes through the hook that recomputes
    [remaining]. *)
Theorem balance_remaining_after_calls (cs : list (Env * Call)) (s : Store)
    (key : ObjectId * Z) (b : LeaveBalance.t) :
  leaveBalances (run cs s) !! key = Some b ->
  leaveBalances s !! key = Some b \/ LeaveBalance.consistent b.
Proof. apply run_keptOrConsistent, keptOrConsistent_refl. Qed.

Lemma balance_remaining_after_calls_witness :
  exists b,
    leaveBalances (run approveThenCancel applied3) !! ("u1"%string, 2026) = Some b
    /\ (leaveBalances applied3 !! ("u1"%string, 2026) = Some b
        \/ LeaveBalance.consistent b).
Proof.
  eexists. split.
  - vm_compute. reflexivity.
  - apply (balance_remaining_after_calls approveThenCancel applied3).
    vm_compute. reflexivity.
Defined.



(** The refund is the inverse of the debit as long as the approval
    leaves a balance document that satisfies the schema (no [remaining]
    below zero): approving and then cancelling, by the owner, a pending
    request whose type has a counter brings every [used] back to its
    value, whether or not the audit entries could be written. *)
Lemma approve_cancel_restores_used (env1 env2 : Env) (s : Store)
    (leaveId reviewerId : ObjectId) (remarks : option string)
    (l : Leave.t) (b : LeaveBalance.t) (k : LeaveBalance.Key) :
  let key := (Leave.userId l, getFullYear env1 (Leave.startDate l)) in
  let d := Leave.calcTotalDays (Leave.isHalfDay l) (Leave.startDate l) (Leave.endDate l) in
  let debited :=
    LeaveBalance.preSave
      (LeaveBalance.set k
         (LeaveBalance.set_used (LeaveBalance.used (LeaveBalance.get k b) + d)
            (LeaveBalance.get k b)) b) in
  getFullYear env2 = getFullYear env1 ->
  leaves s !! leaveId = Some l ->
  Leave.status l = Leave.pending ->
  LeaveService.balanceKey (Leave.leaveType l) = Some k ->
  Leave.validate l = true ->
  Leave.startDate l <= Leave.endDate l ->
  leaveBalances s !! key = Some b ->
  LeaveBalance.validate (snd key) b = true ->
  LeaveBalance.validate (snd key) debited = true ->
  let s1 := snd (LeaveService.approveLeave leaveId reviewerId remarks env1 s) in
  let s2 := snd (LeaveService.cancelLeave leaveId (Leave.userId l) env2 s1) in
  exists b2,
    leaveBalances s2 !! key = Some b2
    /\ forall k', (LeaveBalance.used (LeaveBalance.get k' b2)
                  == LeaveBalance.used (LeaveBalance.get k' b))%Q.
Proof.
  intros key d debited Hyear Hl Hst Hk Hval Hdates Hb Hbval Hdval s1 s2.
  pose proof (calcTotalDays_pos (Leave.isHalfDay l) (Leave.startDate l) (Leave.endDate l)) as Hd.
  fold d in Hd.
  pose proof (validate_get _ _ k Hbval) as Hc.
  assert (Hu : (0 <= LeaveBalance.used (LeaveBalance.get k b))%Q).
  { unfold LeaveBalance.validCounter in Hc.
    apply andb_prop in Hc as [Hc _]. apply andb_prop in Hc as [_ Hu].
    now apply Qle_bool_iff in Hu. }
  assert (Hdeb : LeaveBalance.validate (snd key)
            (LeaveBalance.set k
               (LeaveBalance.set_used (LeaveBalance.used (LeaveBalance.get k b) + d)
                  (LeaveBalance.get k b)) b) = true).
  { apply validate_set; [assumption|].
    apply validCounter_set_used; [assumption|]. lra. }
  assert (Hcred : LeaveBalance.validate (snd key)
            (LeaveBalance.set k
               (LeaveBalance.set_used
                  (LeaveBalance.used (LeaveBalance.get k debited) - d)
                  (LeaveBalance.get k debited)) debited) = true).
  { apply validate_set; [assumption|].
    apply validCounter_set_used; [apply (validate_get _ _ k Hdval)|].
    unfold debited. rewrite get_preSave, get_set. simpl. lra. }
  (* the approval *)
  assert (H1 : exists l1,
             leaves s1 !! leaveId = Some l1
             /\ Leave.userId l1 = Leave.userId l
             /\ Leave.status l1 = Leave.approved
             /\ Leave.leaveType l1 = Leave.leaveType l
             /\ Leave.startDate l1 = Leave.startDate l
             /\ Leave.totalDays l1 = d
             /\ Leave.validate l1 = true
             /\ Leave.endDate l1 = Leave.endDate l
             /\ leaveBalances s1 !! key = Some debited).
  { subst s1.
    unfold LeaveService.approveLeave, LeaveService.writeUsed, leaveSave, leavePrepare, balanceSave,
      auditCreate, bind, ask, get, put, ret, throw, throwIf.
    rewrite Hl, Hst. simpl. rewrite validate_review, Hval. simpl.
    unfold Leave.preSave. simpl.
    rewrite (proj2 (Z.ltb_ge _ _)) by lia.
    simpl. rewrite (balanceKey_not_unpaid _ _ Hk). simpl.
    fold key d. rewrite Hb, Hk. simpl in Hdeb |- *. rewrite Hdeb. simpl.
    destruct (auditUp env1); simpl; rewrite !lookup_insert_eq; eexists;
      (split; [reflexivity|]); simpl; repeat split; try reflexivity.
    all: apply validate_set_totalDays; [exact Hd | exact Hval]. }
  destruct H1 as (l1 & Hl1 & Hu1 & Hst1 & Hty1 & Hsd1 & Hd1 & Hval1 & Hed1 & Hb1).
  subst s2. revert Hl1 Hb1. generalize s1. intros s' Hl1 Hb1.
  unfold LeaveService.cancelLeave, LeaveService.writeUsed, leaveSave, leavePrepare, balanceSave,
    auditCreate, bind, ask, get, put, ret, throw, throwIf.
  rewrite Hl1, Hu1, String.eqb_refl, Hst1, Hty1, Hsd1, Hyear, Hd1. simpl.
  rewrite (balanceKey_not_unpaid _ _ Hk). simpl.
  fold key. rewrite Hb1, Hk. simpl in Hcred |- *. rewrite Hcred. simpl.
  change (Leave.validate (Leave.set_status Leave.cancelled l1)) with (Leave.validate l1).
  rewrite Hval1. simpl. unfold Leave.preSave. simpl. rewrite Hsd1, Hed1.
  rewrite (proj2 (Z.ltb_ge _ _)) by lia. simpl.
  destruct (auditUp env2); simpl; rewrite lookup_insert_eq; eexists;
    (split; [reflexivity|]); intros k'; unfold debited; destruct k, k'; simpl;
    try reflexivity; ring.
Qed.

(** C2, on the code.  Approving and then cancelling a pending casual
    request does not always bring [used] back: in [twoTens] the
    approval of the second request takes [used] from 10 to 20 and
    stores [remaining = -8]; the cancellation by the owner then loads a
    document that its own schema refuses ([remaining] has [min: 0]), the
    save of the refund throws, [used] stays 20 and the request stays
    approved. *)
Theorem approve_cancel_overdrawn :
  let key := ("u1"%string, 2026) in
  let usedCasual := fun b => LeaveBalance.used (LeaveBalance.casual b) in
  let approved := exec (ApproveLeave "b" "boss" None) (envAt 0 "-") twoTens in
  let result := LeaveService.cancelLeave "b" "u1" (envAt 0 "-") approved in
  leaves twoTens !! "b"%string = Some requestB
  /\ usedCasual <$> leaveBalances twoTens !! key = Some 10%Q
  /\ usedCasual <$> leaveBalances approved !! key = Some 20%Q
  /\ fst result = inl ValidationError
  /\ usedCasual <$> leaveBalances (snd result) !! key = Some 20%Q
  /\ Leave.status <$> leaves (snd result) !! "b"%string = Some Leave.approved.
Proof. vm_compute. repeat split; reflexivity. Qed.

(** C7. Whenever the store holds a request of the same employee that is
    pending or approved and whose dates meet the requested interval
    (both ends included), [applyLeave] throws a BadRequest error and
    leaves the store as it was, whatever the leave types of the two
    requests. *)
Theorem applyLeave_rejects_overlap (env : Env) (s : Store) (userId : ObjectId)
    (leaveType : Leave.LeaveType) (startDate endDate : Z) (reason : string)
    (isHalfDay : bool) (halfDayPeriod : option Leave.HalfDayPeriod)
    (attachments : option (list string)) (id : ObjectId) (l : Leave.t) :
  leaves s !! id = Some l ->
  Leave.userId l = userId ->
  Leave.status l = Leave.pending \/ Leave.status l = Leave.approved ->
  Leave.startDate l <= endDate ->
  startDate <= Leave.endDate l ->
  LeaveService.applyLeave userId leaveType startDate endDate reason isHalfDay
    halfDayPeriod attachments env s = (inl BadRequestError, s).
Proof.
  intros Hl Hu Hst H1 H2.
  assert (Ho : LeaveService.overlappingLeave userId startDate endDate s = true).
  { apply (overlappingLeave_intro s userId startDate endDate id l Hl).
    unfold LeaveService.overlaps.
    rewrite Hu, String.eqb_refl.
    rewrite (proj2 (Z.leb_le _ _) H1), (proj2 (Z.leb_le _ _) H2).
    destruct Hst as [-> | ->]; reflexivity. }
  unfold LeaveService.applyLeave, bind, ask, get, throwIf, throw, ret.
  destruct (startDate <? startOfDay env (now env)); [reflexivity|].
  destruct (endDate <? startDate); [reflexivity|].
  destruct isHalfDay; simpl.
  - destruct (bool_decide (is_Some halfDayPeriod)); simpl; [|reflexivity].
    rewrite Ho. reflexivity.
  - rewrite Ho. reflexivity.
Qed.

Lemma applyLeave_rejects_overlap_witness :
  LeaveService.applyLeave "u1" Leave.sick (day 3) (day 5) "a bad cold indeed"
    false None None (envAt 0 "l2") applied3 = (inl BadRequestError, applied3).
Proof.
  apply (applyLeave_rejects_overlap (envAt 0 "l2") applied3 "u1" Leave.sick
           (day 3) (day 5) "a bad cold indeed" false None None "l1" requestL1).
  - vm_compute. reflexivity.
  - reflexivity.
  - left. reflexivity.
  - vm_compute. discriminate.
  - vm_compute. discriminate.
Defined.

(** C10. A maternity or paternity application that passes the date
    checks and the overlap check reaches the balance check (these types
    are not unpaid), where [leaveBalance[leaveType]] is a field the
    balance document does not have: the read of [.remaining] on it
    throws a TypeError.  The call ends with that fault, not with a
    BadRequest error, and no request is stored.  (The balance document
    is the stored one, or the one created with the defaults, for which
    the year must satisfy the schema's [min: 2020].) *)
Theorem applyLeave_faults_without_counter (env : Env) (s : Store) (userId : ObjectId)
    (leaveType : Leave.LeaveType) (startDate endDate : Z) (reason : string)
    (isHalfDay : bool) (halfDayPeriod : option Leave.HalfDayPeriod)
    (attachments : option (list string)) :
  leaveType = Leave.maternity \/ leaveType = Leave.paternity ->
  startOfDay env (now env) <= startDate ->
  startDate <= endDate ->
  (isHalfDay = true -> is_Some halfDayPeriod) ->
  LeaveService.overlappingLeave userId startDate endDate s = false ->
  is_Some (leaveBalances s !! (userId, getFullYear env (now env)))
    \/ 2020 <= getFullYear env (now env) ->
  let r := LeaveService.applyLeave userId leaveType startDate endDate reason
             isHalfDay halfDayPeriod attachments env s in
  Leave.isUnpaid leaveType = false
  /\ LeaveService.balanceKey leaveType = None
  /\ fst r = inl TypeError
  /\ leaves (snd r) = leaves s.
Proof.
  intros Hty Htoday Hdates Hhalf Hover Hbal r.
  assert (Hun : Leave.isUnpaid leaveType = false) by (destruct Hty as [-> | ->]; reflexivity).
  assert (Hk : LeaveService.balanceKey leaveType = None) by (destruct Hty as [-> | ->]; reflexivity).
  split; [exact Hun|]. split; [exact Hk|].
  subst r.
  unfold LeaveService.applyLeave, balanceCreate, balanceSave, bind, ask, get, put, throwIf, throw, ret.
  rewrite (proj2 (Z.ltb_ge _ _) Htoday), (proj2 (Z.ltb_ge _ _) Hdates).
  assert (Hhp : isHalfDay = true -> negb (bool_decide (is_Some halfDayPeriod)) = false).
  { intros Hh. rewrite bool_decide_eq_true_2; [reflexivity | auto]. }
  destruct isHalfDay; simpl; rewrite ?Hhp by reflexivity; simpl; rewrite Hover, Hun; simpl.
  all: destruct (leaveBalances s !! (userId, getFullYear env (now env))) as [b|] eqn:Hb;
    simpl; rewrite ?Hk; simpl; [auto|].
  all: destruct Hbal as [[? [=]] | Hy]; rewrite (validate_defaults _ Hy); simpl.
  all: auto.
Qed.

Lemma applyLeave_faults_without_counter_witness :
  let r := LeaveService.applyLeave "u1" Leave.maternity (day 30) (day 120)
             "expecting a child" false None None (envAt 0 "l9") applied3 in
  fst r = inl TypeError /\ leaves (snd r) = leaves applied3.
Proof.
  apply (applyLeave_faults_without_counter (envAt 0 "l9") applied3 "u1" Leave.maternity
           (day 30) (day 120) "expecting a child" false None None).
  - left. reflexivity.
  - vm_compute. discriminate.
  - vm_compute. discriminate.
  - discriminate.
  - vm_compute. reflexivity.
  - right. vm_compute. discriminate.
Defined.

(** ** The salary ledger *)

(** C4. On a salary record whose status is paid, [updateSalary],
    [deleteSalary] and [processSalaryPayment] each throw a BadRequest
    error and leave the store, the record included, as it was. *)
Theorem paid_salary_immutable (env : Env) (s : Store) (salaryId : ObjectId) (x : Salary.t) :
  salaries s !! salaryId = Some x ->
  Salary.status x = Salary.paid ->
  (forall updateData updatedById,
     SalaryService.updateSalary salaryId updateData updatedById env s
     = (inl BadRequestError, s))
  /\ (forall deletedById,
     SalaryService.deleteSalary salaryId deletedById env s = (inl BadRequestError, s))
  /\ (forall paymentMethod processedById transactionId actualCreditDate remarks,
     SalaryService.processSalaryPayment salaryId paymentMethod processedById
       transactionId actualCreditDate remarks env s = (inl BadRequestError, s)).
Proof.
  intros Hx Hst.
  unfold SalaryService.updateSalary, SalaryService.deleteSalary,
    SalaryService.processSalaryPayment, bind, ask, get, throwIf, throw.
  rewrite Hx, Hst. repeat split.
Qed.

Lemma paid_salary_immutable_witness :
  SalaryService.deleteSalary "s1" "admin" (envAt 2 "-") paidOut
  = (inl BadRequestError, paidOut).
Proof.
  destruct (salaries paidOut !! "s1"%string) as [x|] eqn:Hx;
    [|vm_compute in Hx; discriminate].
  apply (paid_salary_immutable (envAt 2 "-") paidOut "s1" x Hx).
  vm_compute in Hx. injection Hx as <-. reflexivity.
Defined.




(** C6, amended.  On a stored record that satisfies its schema, with the
    audit entry written, [updateSalaryStatus] succeeds and stores the
    record with the new status.  It stamps [processedBy] and
    [processedAt] when the new status is processed, and leaves them as
    they were when it is paid.  When the new status is paid it sends the
    payment notice, carrying month, year, netSalary, grossSalary,
    totalDeductions and creditDate of the stored record, only if the
    previous status was not paid and the populated employee has an email
    and a display name; a repeated set to paid sends nothing. *)
Theorem updateSalaryStatus_stamp_and_notice (env : Env) (s : Store)
    (salaryId updatedById : ObjectId) (x : Salary.t) :
  salaries s !! salaryId = Some x ->
  Salary.validate x = true ->
  auditUp env = true ->
  (exists y s',
     SalaryService.updateSalaryStatus salaryId Salary.processed updatedById env s
     = (inr y, s')
     /\ y = Salary.preSave (Salary.set_processed updatedById (now env)
                             (Salary.set_status Salary.processed x))
     /\ salaries s' !! salaryId = Some y
     /\ Salary.status y = Salary.processed
     /\ Salary.processedBy y = Some updatedById
     /\ Salary.processedAt y = Some (now env)
     /\ outbox s' = outbox s)
  /\ (exists y s',
     SalaryService.updateSalaryStatus salaryId Salary.paid updatedById env s
     = (inr y, s')
     /\ y = Salary.preSave (Salary.set_status Salary.paid x)
     /\ salaries s' !! salaryId = Some y
     /\ Salary.status y = Salary.paid
     /\ Salary.processedBy y = Salary.processedBy x
     /\ Salary.processedAt y = Salary.processedAt x
     /\ outbox s'
        = outbox s ++
          match SalaryService.notifiable (users s !! Salary.userId x) with
          | Some u =>
              if Salary.status_eqb (Salary.status x) Salary.paid then []
              else [ mkEmail (email u) (displayName u) (Salary.month y) (Salary.year y)
                       (Salary.netSalary y) (Salary.grossSalary y)
                       (Salary.totalDeductions y) (Salary.creditDate y) ]
          | None => []
          end).
Proof.
  intros Hx Hval Haudit.
  unfold SalaryService.updateSalaryStatus, salarySave, auditCreate, sendSalaryPaidEmail,
    bind, ask, get, put, ret, throw, throwIf.
  rewrite Hx. simpl.
  change (Salary.validate (Salary.set_processed updatedById (now env)
            (Salary.set_status Salary.processed x))) with (Salary.validate x).
  change (Salary.validate (Salary.set_status Salary.paid x)) with (Salary.validate x).
  rewrite Hval, Haudit. simpl. split.
  - eexists _, _. split; [reflexivity|]. simpl.
    rewrite lookup_insert_eq. repeat split; reflexivity.
  - destruct (SalaryService.notifiable (users s !! Salary.userId x)) as [u|] eqn:Hu;
      destruct (Salary.status_eqb (Salary.status x) Salary.paid) eqn:Hp; simpl;
      eexists _, _; (split; [reflexivity|]); simpl;
      rewrite lookup_insert_eq, ?app_nil_r; repeat split; reflexivity.
Qed.

Lemma updateSalaryStatus_stamp_and_notice_witness :
  exists y s',
    SalaryService.updateSalaryStatus "s1" Salary.paid "hr" (envAt 1 "-") salaried
    = (inr y, s')
    /\ Salary.processedBy y = None
    /\ length (outbox s') = 1%nat.
Proof.
  destruct (salaries salaried !! "s1"%string) as [x|] eqn:Hx;
    [|vm_compute in Hx; discriminate].
  destruct (updateSalaryStatus_stamp_and_notice (envAt 1 "-") salaried "s1" "hr" x Hx)
    as [_ (y & s' & Hcall & _ & _ & _ & Hby & _ & Hout)].
  - vm_compute in Hx. injection Hx as <-. vm_compute. reflexivity.
  - reflexivity.
  - exists y, s'. split; [exact Hcall|].
    vm_compute in Hx. injection Hx as <-. split.
    + rewrite Hby. reflexivity.
    + rewrite Hout. vm_compute. reflexivity.
Defined.

(** C6 as stated fails: [updateSalaryStatus] takes the pending record of
    [salaried] to paid and stores it with neither [processedBy] nor
    [processedAt]. *)
Lemma paid_by_status_update_is_not_stamped :
  let r := SalaryService.updateSalaryStatus "s1" Salary.paid "hr" (envAt 1 "-") salaried in
  Salary.status <$> salaries salaried !! "s1"%string = Some Salary.pending
  /\ (exists y, fst r = inr y /\ Salary.status y = Salary.paid
                /\ Salary.processedBy y = None /\ Salary.processedAt y = None)
  /\ (Salary.processedBy <$> salaries (snd r) !! "s1"%string) = Some None.
Proof.
  vm_compute. split; [reflexivity|]. split; [|reflexivity].
  eexists. repeat split; reflexivity.
Qed.

(** ** Both ledgers *)

(** C8, amended.  A call of either ledger that ends with a business-rule
    error (NotFound, BadRequest, Forbidden) leaves the store as it was,
    with one exception: [applyLeave] may have created, with the schema
    defaults, the balance document of (employee, current year) that did
    not exist.  No request, salary record or existing balance is created
    or modified. *)
Theorem business_failure_effect (c : Call) (env : Env) (s : Store) (e : Failure) :
  fst (call c env s) = inl e ->
  businessError e = true ->
  businessFailureEffect c env s (snd (call c env s)).
Proof.
  revert e.
  change (post (call c) env s (fun r s' => forall e, r = inl e -> businessError e = true ->
            businessFailureEffect c env s s')).
  destruct c; post_run.
  all: intros e0 [= <-] Hbus; try discriminate Hbus; simpl; auto.
  unfold Leave.preSave in *.
  destruct (_ <? _) in *; simplify_eq.
Qed.

Lemma business_failure_effect_witness :
  businessFailureEffect
    (ApplyLeave "u1" Leave.casual (day 1) (day 13) "family event" false None None)
    (envAt 0 "l1") emptyStore
    (snd (call (ApplyLeave "u1" Leave.casual (day 1) (day 13) "family event" false None None)
            (envAt 0 "l1") emptyStore)).
Proof.
  apply (business_failure_effect
           (ApplyLeave "u1" Leave.casual (day 1) (day 13) "family event" false None None)
           (envAt 0 "l1") emptyStore BadRequestError).
  - vm_compute. reflexivity.
  - reflexivity.
Defined.

(** C8 as stated fails: an application for thirteen days of casual leave
    by an employee without a balance document is rejected for
    insufficient balance after the document of the current year has been
    created with the default entitlement of twelve days. *)
Lemma rejected_application_creates_balance :
  let r := LeaveService.applyLeave "u1" Leave.casual (day 1) (day 13) "family event"
             false None None (envAt 0 "l1") emptyStore in
  fst r = inl BadRequestError
  /\ leaveBalances emptyStore !! ("u1"%string, 2026) = None
  /\ leaveBalances (snd r) !! ("u1"%string, 2026) = Some LeaveBalance.defaults
  /\ snd r <> emptyStore.
Proof.
  vm_compute. repeat split; try reflexivity.
  intros H. discriminate H.
Qed.

(** C9, on the code.  The services await [auditLogModel.create] without
    a handler: when the audit write is refused, [applyLeave] and
    [createSalary] end with the store's error although the request, or
    the salary record, has been stored. *)
Theorem audit_failure_reaches_caller :
  let r1 := LeaveService.applyLeave "u1" Leave.casual (day 1) (day 3) "family event"
              false None None (utcEnv (day 0) false "l1") emptyStore in
  let r2 := SalaryService.createSalary "u1" 3 2025 marchStructure 44000 3800 40200
              30 30 0 0 false "hr" None None (utcEnv (day 0) false "s1") staff in
  fst r1 = inl MongoError
  /\ leaves (snd r1) !! "l1"%string = Some requestL1
  /\ fst r2 = inl MongoError
  /\ Salary.status <$> salaries (snd r2) !! "s1"%string = Some Salary.pending.
Proof. vm_compute. repeat split; reflexivity. Qed.

(** * More of the two services *)

(** ** Applications *)







(** X2. An application for more days than the counter of its leave type
    has left is rejected with a BadRequest error, and when the balance
    document was already there the store is left as it was. *)
Theorem applyLeave_insufficient_balance (env : Env) (s : Store) (userId : ObjectId)
    (leaveType : Leave.LeaveType) (startDate endDate : Z) (reason : string)
    (isHalfDay : bool) (halfDayPeriod : option Leave.HalfDayPeriod)
    (attachments : option (list string)) (k : LeaveBalance.Key) (b : LeaveBalance.t) :
  LeaveService.balanceKey leaveType = Some k ->
  leaveBalances s !! (userId, getFullYear env (now env)) = Some b ->
  (LeaveBalance.remaining (LeaveBalance.get k b)
   < Leave.calcTotalDays isHalfDay startDate endDate)%Q ->
  LeaveService.applyLeave userId leaveType startDate endDate reason isHalfDay
    halfDayPeriod attachments env s = (inl BadRequestError, s).
Proof.
  intros Hk Hb Hrem. apply Qlt_bool_iff in Hrem.
  unfold LeaveService.applyLeave, bind, ask, get, put, throwIf, throw, ret.
  destruct (startDate <? startOfDay env (now env)); [reflexivity|].
  destruct (endDate <? startDate); [reflexivity|].
  unfold Leave.calcTotalDays in Hrem.
  destruct isHalfDay; simpl.
  - destruct (bool_decide (is_Some halfDayPeriod)); simpl; [|reflexivity].
    destruct (LeaveService.overlappingLeave userId startDate endDate s); [reflexivity|].
    simpl. rewrite (balanceKey_not_unpaid _ _ Hk). simpl.
    rewrite Hb, Hk. simpl. rewrite Hrem. reflexivity.
  - destruct (LeaveService.overlappingLeave userId startDate endDate s); [reflexivity|].
    simpl. rewrite (balanceKey_not_unpaid _ _ Hk). simpl.
    rewrite Hb, Hk. simpl. rewrite Hrem. reflexivity.
Qed.

Lemma applyLeave_insufficient_balance_witness :
  LeaveService.applyLeave "u1" Leave.sick (day 10) (day 20) "a bad cold indeed"
    false None None (envAt 0 "l2") applied3 = (inl BadRequestError, applied3).
Proof.
  apply (applyLeave_insufficient_balance (envAt 0 "l2") applied3 "u1" Leave.sick
           (day 10) (day 20) "a bad cold indeed" false None None
           LeaveBalance.kSick LeaveBalance.defaults).
  - reflexivity.
  - vm_compute. reflexivity.
  - vm_compute. reflexivity.
Defined.

(** X3. An application that starts before today, ends before it starts,
    or is for a half day without a half-day period, is rejected with a
    BadRequest error before the store is read or written. *)
Theorem applyLeave_rejects_bad_dates (env : Env) (s : Store) (userId : ObjectId)
    (leaveType : Leave.LeaveType) (startDate endDate : Z) (reason : string)
    (isHalfDay : bool) (halfDayPeriod : option Leave.HalfDayPeriod)
    (attachments : option (list string)) :
  startDate < startOfDay env (now env)
  \/ endDate < startDate
  \/ (isHalfDay = true /\ halfDayPeriod = None) ->
  LeaveService.applyLeave userId leaveType startDate endDate reason isHalfDay
    halfDayPeriod attachments env s = (inl BadRequestError, s).
Proof.
  intros H.
  unfold LeaveService.applyLeave, bind, ask, get, put, throwIf, throw, ret.
  destruct (Z.ltb_spec startDate (startOfDay env (now env))); [reflexivity|].
  destruct (Z.ltb_spec endDate startDate); [reflexivity|].
  destruct H as [H | [H | [-> ->]]]; [lia | lia |]. reflexivity.
Qed.

Lemma applyLeave_rejects_bad_dates_witness :
  LeaveService.applyLeave "u1" Leave.unpaid (day (-1)) (day 2) "visiting family"
    false None None (envAt 0 "l2") emptyStore = (inl BadRequestError, emptyStore).
Proof.
  apply (applyLeave_rejects_bad_dates (envAt 0 "l2") emptyStore "u1" Leave.unpaid
           (day (-1)) (day 2) "visiting family" false None None).
  left. vm_compute. reflexivity.
Defined.

(** X4. An application for unpaid leave neither reads, creates nor
    changes a balance document, whatever its outcome. *)
Theorem applyLeave_unpaid_keeps_balances (env : Env) (s : Store) (userId : ObjectId)
    (startDate endDate : Z) (reason : string)
    (isHalfDay : bool) (halfDayPeriod : option Leave.HalfDayPeriod)
    (attachments : option (list string)) :
  leaveBalances
    (snd (LeaveService.applyLeave userId Leave.unpaid startDate endDate reason
            isHalfDay halfDayPeriod attachments env s))
  = leaveBalances s.
Proof.
  change (post (LeaveService.applyLeave userId Leave.unpaid startDate endDate reason
                  isHalfDay halfDayPeriod attachments) env s
            (fun _ s' => leaveBalances s' = leaveBalances s)).
  post_run; try reflexivity; simpl in *; discriminate.
Qed.





(** ** Reviews and cancellations *)

Lemma leaveSave_ok (id : ObjectId) (l : Leave.t) (env : Env) (s : Store) :
  Leave.validate l = true ->
  Leave.startDate l <= Leave.endDate l ->
  leaveSave id l env s
  = (inr (Leave.set_totalDays
            (Leave.calcTotalDays (Leave.isHalfDay l) (Leave.startDate l) (Leave.endDate l)) l),
     set_leaves
       (<[id := Leave.set_totalDays
                  (Leave.calcTotalDays (Leave.isHalfDay l) (Leave.startDate l) (Leave.endDate l))
                  l]> (leaves s)) s).
Proof.
  intros Hval Hdates.
  unfold leaveSave, leavePrepare, bind, get, put, throwIf, throw, ret, Leave.preSave.
  rewrite Hval, (proj2 (Z.ltb_ge _ _) Hdates). reflexivity.
Qed.

(** X6. Only a pending request can be reviewed: [approveLeave] and
    [rejectLeave] on a request that is approved, rejected or cancelled
    throw a BadRequest error and change nothing. *)
Theorem review_requires_pending (env : Env) (s : Store) (leaveId reviewerId : ObjectId)
    (l : Leave.t) :
  leaves s !! leaveId = Some l ->
  Leave.status l <> Leave.pending ->
  (forall remarks,
     LeaveService.approveLeave leaveId reviewerId remarks env s
     = (inl BadRequestError, s))
  /\ (forall remarks,
     LeaveService.rejectLeave leaveId reviewerId remarks env s
     = (inl BadRequestError, s)).
Proof.
  intros Hl Hst.
  unfold LeaveService.approveLeave, LeaveService.rejectLeave, bind, ask, get,
    throwIf, throw.
  rewrite Hl. destruct (Leave.status l); [congruence | | |]; split; reflexivity.
Qed.

Lemma review_requires_pending_witness :
  LeaveService.approveLeave "l1" "boss" None (envAt 1 "-") approved3
  = (inl BadRequestError, approved3)
  /\ LeaveService.rejectLeave "l1" "boss" "changed my mind" (envAt 1 "-") approved3
     = (inl BadRequestError, approved3).
Proof.
  destruct (leaves approved3 !! "l1"%string) as [l|] eqn:Hl;
    [|vm_compute in Hl; discriminate].
  assert (Hst : Leave.status l <> Leave.pending).
  { vm_compute in Hl. injection Hl as <-. discriminate. }
  destruct (review_requires_pending (envAt 1 "-") approved3 "l1" "boss" l Hl Hst)
    as [H1 H2].
  split; [apply H1 | apply H2].
Defined.



(** X8. The approval debits the balance of the year of the start date
    only if that document exists: for an unpaid request, or when there
    is no balance document for that year (the application checked the
    balance of the year it was made in), the approval succeeds and
    changes only the request and the audit log. *)
Theorem approveLeave_without_debit (env : Env) (s : Store) (leaveId reviewerId : ObjectId)
    (remarks : option string) (l : Leave.t) :
  leaves s !! leaveId = Some l ->
  Leave.status l = Leave.pending ->
  Leave.validate l = true ->
  Leave.startDate l <= Leave.endDate l ->
  auditUp env = true ->
  Leave.leaveType l = Leave.unpaid
  \/ leaveBalances s !! (Leave.userId l, getFullYear env (Leave.startDate l)) = None ->
  let l' := Leave.set_totalDays
              (Leave.calcTotalDays (Leave.isHalfDay l) (Leave.startDate l) (Leave.endDate l))
              (Leave.set_review reviewerId (now env)
                 (if truthy remarks then remarks else Leave.reviewRemarks l)
                 (Leave.set_status Leave.approved l)) in
  LeaveService.approveLeave leaveId reviewerId remarks env s
  = (inr l',
     set_auditLogs
       (auditLogs s ++ [mkAudit (Leave.userId l) reviewerId "LEAVE_APPROVED" "leave" leaveId])
       (set_leaves (<[leaveId := l']> (leaves s)) s)).
Proof.
  intros Hl Hst Hval Hdates Haudit Hno l'.
  unfold LeaveService.approveLeave, auditCreate, bind, ask, get, put, throwIf, throw, ret.
  rewrite Hl, Hst. simpl.
  rewrite leaveSave_ok by assumption. simpl.
  destruct Hno as [Hty | Hb].
  - rewrite Hty. simpl. rewrite Haudit. reflexivity.
  - destruct (Leave.isUnpaid (Leave.leaveType l)); simpl;
      rewrite ?Hb; simpl; rewrite Haudit; reflexivity.
Qed.

Lemma approveLeave_without_debit_witness :
  exists l' s',
    LeaveService.approveLeave "l1" "boss" None (envAt 0 "-") appliedInDecember
    = (inr l', s')
    /\ Leave.status l' = Leave.approved
    /\ leaveBalances s' = leaveBalances appliedInDecember.
Proof.
  eexists _, _. split.
  - apply (approveLeave_without_debit (envAt 0 "-") appliedInDecember "l1" "boss" None
             requestL1).
    + vm_compute. reflexivity.
    + reflexivity.
    + vm_compute. reflexivity.
    + vm_compute. discriminate.
    + reflexivity.
    + right. vm_compute. reflexivity.
  - repeat split; reflexivity.
Defined.

(** X9. [cancelLeave] by anyone but the owner throws a Forbidden error,
    whatever the status of the request; by the owner, on a request that
    is already cancelled or was rejected, it throws a BadRequest error.
    Neither changes anything. *)
Theorem cancelLeave_refusals (env : Env) (s : Store) (leaveId userId : ObjectId)
    (l : Leave.t) :
  leaves s !! leaveId = Some l ->
  (Leave.userId l <> userId ->
   LeaveService.cancelLeave leaveId userId env s = (inl ForbiddenError, s))
  /\ (Leave.userId l = userId ->
      Leave.status l = Leave.cancelled \/ Leave.status l = Leave.rejected ->
      LeaveService.cancelLeave leaveId userId env s = (inl BadRequestError, s)).
Proof.
  intros Hl.
  unfold LeaveService.cancelLeave, bind, ask, get, throwIf, throw, ret.
  rewrite Hl. split.
  - intros Hu. apply String.eqb_neq in Hu. rewrite Hu. reflexivity.
  - intros Hu Hst. apply String.eqb_eq in Hu. rewrite Hu. simpl.
    destruct Hst as [-> | ->]; reflexivity.
Qed.

Lemma cancelLeave_refusals_witness :
  LeaveService.cancelLeave "l1" "u2" (envAt 1 "-") approved3
  = (inl ForbiddenError, approved3).
Proof.
  destruct (leaves approved3 !! "l1"%string) as [l|] eqn:Hl;
    [|vm_compute in Hl; discriminate].
  apply (cancelLeave_refusals (envAt 1 "-") approved3 "l1" "u2" l Hl).
  vm_compute in Hl. injection Hl as <-. discriminate.
Defined.

(** X10. Cancelling, as its owner, a request that was never debited (a
    pending one, an approved unpaid one, or an approved one with no
    balance document for the year of its start date) stores it as
    cancelled, writes the audit entry and touches no balance. *)
Theorem cancelLeave_without_refund (env : Env) (s : Store) (leaveId : ObjectId)
    (l : Leave.t) :
  leaves s !! leaveId = Some l ->
  Leave.status l = Leave.pending
  \/ (Leave.status l = Leave.approved
      /\ (Leave.leaveType l = Leave.unpaid
          \/ leaveBalances s !! (Leave.userId l, getFullYear env (Leave.startDate l))
             = None)) ->
  Leave.validate l = true ->
  Leave.startDate l <= Leave.endDate l ->
  auditUp env = true ->
  let l' := Leave.set_totalDays
              (Leave.calcTotalDays (Leave.isHalfDay l) (Leave.startDate l) (Leave.endDate l))
              (Leave.set_status Leave.cancelled l) in
  LeaveService.cancelLeave leaveId (Leave.userId l) env s
  = (inr l',
     set_auditLogs
       (auditLogs s
        ++ [mkAudit (Leave.userId l) (Leave.userId l) "LEAVE_CANCELLED" "leave" leaveId])
       (set_leaves (<[leaveId := l']> (leaves s)) s)).
Proof.
  intros Hl Hst Hval Hdates Haudit l'.
  unfold LeaveService.cancelLeave, auditCreate, bind, ask, get, put, throwIf, throw, ret.
  rewrite Hl, String.eqb_refl. simpl.
  destruct Hst as [Hst | [Hst [Hty | Hb]]]; rewrite Hst; simpl.
  - rewrite leaveSave_ok by assumption. simpl. rewrite Haudit. reflexivity.
  - rewrite Hty. simpl.
    rewrite leaveSave_ok by assumption. simpl. rewrite Haudit. reflexivity.
  - destruct (Leave.isUnpaid (Leave.leaveType l)); simpl; rewrite ?Hb; simpl;
      rewrite leaveSave_ok by assumption; simpl; rewrite Haudit; reflexivity.
Qed.

Lemma cancelLeave_without_refund_witness :
  exists l' s',
    LeaveService.cancelLeave "l1" "u1" (envAt 1 "-") applied3 = (inr l', s')
    /\ Leave.status l' = Leave.cancelled
    /\ leaveBalances s' = leaveBalances applied3.
Proof.
  eexists _, _. split.
  - apply (cancelLeave_without_refund (envAt 1 "-") applied3 "l1" requestL1).
    + vm_compute. reflexivity.
    + left. reflexivity.
    + vm_compute. reflexivity.
    + vm_compute. discriminate.
    + reflexivity.
  - repeat split; reflexivity.
Defined.

(** X11. Cancelling, as its owner, an approved request whose leave type
    has a counter refunds it: when the balance document satisfies its
    schema and [used] covers the day count, [used] is lowered by the
    request's [totalDays], [remaining] is recomputed as [total - used],
    the request is stored as cancelled and the audit entry is written. *)
Theorem cancelLeave_refunds (env : Env) (s : Store) (leaveId : ObjectId)
    (l : Leave.t) (b : LeaveBalance.t) (k : LeaveBalance.Key) :
  let key := (Leave.userId l, getFullYear env (Leave.startDate l)) in
  leaves s !! leaveId = Some l ->
  Leave.status l = Leave.approved ->
  LeaveService.balanceKey (Leave.leaveType l) = Some k ->
  leaveBalances s !! key = Some b ->
  LeaveBalance.validate (snd key) b = true ->
  (Leave.totalDays l <= LeaveBalance.used (LeaveBalance.get k b))%Q ->
  Leave.validate l = true ->
  Leave.startDate l <= Leave.endDate l ->
  auditUp env = true ->
  exists l' b' s',
    LeaveService.cancelLeave leaveId (Leave.userId l) env s = (inr l', s')
    /\ Leave.status l' = Leave.cancelled
    /\ leaves s' !! leaveId = Some l'
    /\ leaveBalances s' !! key = Some b'
    /\ LeaveBalance.used (LeaveBalance.get k b')
       = (LeaveBalance.used (LeaveBalance.get k b) - Leave.totalDays l)%Q
    /\ LeaveBalance.remaining (LeaveBalance.get k b')
       = (LeaveBalance.total (LeaveBalance.get k b)
          - (LeaveBalance.used (LeaveBalance.get k b) - Leave.totalDays l))%Q
    /\ LeaveBalance.total (LeaveBalance.get k b') = LeaveBalance.total (LeaveBalance.get k b).
Proof.
  intros key Hl Hst Hk Hb Hbval Hused Hval Hdates Haudit.
  assert (Hcred : LeaveBalance.validate (snd key)
            (LeaveBalance.set k
               (LeaveBalance.set_used
                  (LeaveBalance.used (LeaveBalance.get k b) - Leave.totalDays l)
                  (LeaveBalance.get k b)) b) = true).
  { apply validate_set; [assumption|].
    apply validCounter_set_used; [apply (validate_get _ _ k Hbval)|]. lra. }
  unfold LeaveService.cancelLeave, LeaveService.writeUsed, balanceSave, auditCreate,
    bind, ask, get, put, throwIf, throw, ret.
  rewrite Hl, String.eqb_refl, Hst. simpl.
  rewrite (balanceKey_not_unpaid _ _ Hk). simpl.
  fold key. rewrite Hb, Hk. simpl in Hcred |- *. rewrite Hcred. simpl.
  rewrite leaveSave_ok by assumption. simpl. rewrite Haudit.
  eexists _, _, _. split; [reflexivity|]. simpl.
  rewrite !lookup_insert_eq. repeat split; try reflexivity.
  all: rewrite get_preSave, get_set; reflexivity.
Qed.

Lemma cancelLeave_refunds_witness :
  exists l' b' s',
    LeaveService.cancelLeave "l1" "u1" (envAt 1 "-") approved3 = (inr l', s')
    /\ Leave.status l' = Leave.cancelled
    /\ leaveBalances s' !! ("u1"%string, 2026) = Some b'
    /\ (LeaveBalance.used (LeaveBalance.casual b') == 0)%Q
    /\ (LeaveBalance.remaining (LeaveBalance.casual b') == 12)%Q.
Proof.
  destruct (leaves approved3 !! "l1"%string) as [l|] eqn:Hl;
    [|vm_compute in Hl; discriminate].
  destruct (leaveBalances approved3 !! ("u1"%string, 2026)) as [b|] eqn:Hb;
    [|vm_compute in Hb; discriminate].
  pose proof Hl as El. vm_compute in El. injection El as El.
  pose proof Hb as Eb. vm_compute in Eb. injection Eb as Eb.
  destruct (cancelLeave_refunds (envAt 1 "-") approved3 "l1" l b LeaveBalance.kCasual)
    as (l' & b' & s' & H1 & H2 & _ & H3 & H4 & H5 & _).
  - exact Hl.
  - subst l. reflexivity.
  - subst l. reflexivity.
  - subst l. exact Hb.
  - subst l b. vm_compute. reflexivity.
  - subst l b. vm_compute. discriminate.
  - subst l. vm_compute. reflexivity.
  - subst l. vm_compute. discriminate.
  - reflexivity.
  - exists l', b', s'. subst l b. split; [exact H1|]. split; [exact H2|].
    split; [exact H3|]. simpl in H4, H5. rewrite H4, H5. split; vm_compute; reflexivity.
Defined.

(** ** What no sequence of calls does *)

Lemma leaveFollows_trans (a b c : Leave.t) :
  leaveFollows a b -> leaveFollows b c -> leaveFollows a c.
Proof.
  intros [-> | Hab] [-> | Hbc]; [now left | now right | now right |].
  right.
  destruct Hab as (U1 & T1 & S1 & E1 & H1 & R1 & M1).
  destruct Hbc as (U2 & T2 & S2 & E2 & H2 & R2 & M2).
  repeat split; try congruence.
  destruct M1 as [[P1 Q1] | [P1 Q1]], M2 as [[P2 Q2] | [P2 Q2]]; try congruence.
  left. split; [exact P1 | congruence].
Qed.

Lemma keepsRequests_refl m : keepsRequests m m.
Proof. intros id l H. exists l. split; [exact H | now left]. Qed.

Lemma keepsRequests_trans m1 m2 m3 :
  keepsRequests m1 m2 -> keepsRequests m2 m3 -> keepsRequests m1 m3.
Proof.
  intros H12 H23 id l H.
  destruct (H12 id l H) as (l2 & H2 & F12).
  destruct (H23 id l2 H2) as (l3 & H3 & F23).
  exists l3. split; [exact H3 | exact (leaveFollows_trans _ _ _ F12 F23)].
Qed.

Lemma keepsRequests_write m id l l' :
  m !! id = Some l -> leaveFollows l l' -> keepsRequests m (<[id := l']> m).
Proof.
  intros Hl F id0 l0 H0. rewrite lookup_insert. case_decide.
  - subst. rewrite Hl in H0. injection H0 as <-. eauto.
  - exists l0. split; [exact H0 | now left].
Qed.

Lemma keepsRequests_new m id l' :
  m !! id = None -> keepsRequests m (<[id := l']> m).
Proof.
  intros Hl id0 l0 H0. rewrite lookup_insert. case_decide.
  - subst. congruence.
  - exists l0. split; [exact H0 | now left].
Qed.

Lemma preSave_follows (l0 l l' : Leave.t) :
  Leave.preSave l = inr l' ->
  Leave.userId l = Leave.userId l0 -> Leave.leaveType l = Leave.leaveType l0 ->
  Leave.startDate l = Leave.startDate l0 -> Leave.endDate l = Leave.endDate l0 ->
  Leave.isHalfDay l = Leave.isHalfDay l0 -> Leave.reason l = Leave.reason l0 ->
  (Leave.status l0 = Leave.pending /\ Leave.status l <> Leave.pending)
  \/ (Leave.status l0 = Leave.approved /\ Leave.status l = Leave.cancelled) ->
  leaveFollows l0 l'.
Proof.
  unfold Leave.preSave. destruct (_ <? _); [discriminate|].
  intros [= <-] ? ? ? ? ? ? ?. right. simpl. auto 10.
Qed.

Lemma exec_keepsRequests (c : Call) (env : Env) (s : Store) :
  keepsRequests (leaves s) (leaves (exec c env s)).
Proof.
  change (post (call c) env s (fun _ s' => keepsRequests (leaves s) (leaves s'))).
  destruct c; post_run; simpl; try apply keepsRequests_refl.
  all: try (apply keepsRequests_new; assumption).
  all: eapply keepsRequests_write; [eassumption|].
  all: eapply preSave_follows; [eassumption | reflexivity ..|]; simpl.
  all: destruct (Leave.status _); simpl in *; try discriminate; auto.
  all: try (left; split; [reflexivity | discriminate]).
Qed.

Lemma run_keepsRequests (cs : list (Env * Call)) (s : Store) :
  keepsRequests (leaves s) (leaves (run cs s)).
Proof.
  revert s. induction cs as [|[env c] cs IH]; intros s; simpl.
  - apply keepsRequests_refl.
  - eapply keepsRequests_trans; [apply exec_keepsRequests | apply IH].
Qed.

(** X12. The life of a request.  Whatever calls are made, in whatever
    environments and with whatever outcomes, a stored request is never
    deleted and keeps its owner, leave type, dates and reason; its
    status only moves from pending to approved, rejected or cancelled,
    or from approved to cancelled; a rejected or cancelled request is
    never written again. *)
Theorem request_lifecycle (cs : list (Env * Call)) (s : Store) (id : ObjectId)
    (l : Leave.t) :
  leaves s !! id = Some l ->
  exists l',
    leaves (run cs s) !! id = Some l'
    /\ leaveFollows l l'
    /\ (Leave.status l = Leave.rejected \/ Leave.status l = Leave.cancelled -> l' = l).
Proof.
  intros Hl. destruct (run_keepsRequests cs s id l Hl) as (l' & Hl' & F).
  exists l'. split; [exact Hl'|]. split; [exact F|].
  intros Hst. destruct F as [-> | (_ & _ & _ & _ & _ & _ & M)]; [reflexivity|].
  destruct M as [[P _] | [P _]], Hst as [Q | Q]; congruence.
Qed.

Lemma request_lifecycle_witness :
  exists l',
    leaves (run approveThenCancel applied3) !! "l1"%string = Some l'
    /\ leaveFollows requestL1 l'
    /\ (Leave.status requestL1 = Leave.rejected
        \/ Leave.status requestL1 = Leave.cancelled -> l' = requestL1).
Proof.
  apply (request_lifecycle approveThenCancel applied3 "l1" requestL1).
  vm_compute. reflexivity.
Defined.

Lemma sameEntitlement_refl b : sameEntitlement b b.
Proof. repeat split. Qed.

Lemma sameEntitlement_trans a b c :
  sameEntitlement a b -> sameEntitlement b c -> sameEntitlement a c.
Proof.
  intros (T1 & U1 & C1) (T2 & U2 & C2).
  split; [intros k; rewrite T2; apply T1 | split; congruence].
Qed.

Lemma sameEntitlement_write k u b :
  sameEntitlement b
    (LeaveBalance.preSave
       (LeaveBalance.set k (LeaveBalance.set_used u (LeaveBalance.get k b)) b)).
Proof. repeat split; try (destruct k; reflexivity). intros k'. destruct k, k'; reflexivity. Qed.

Lemma keepsEntitlements_refl m : keepsEntitlements m m.
Proof. intros key b H. exists b. split; [exact H | apply sameEntitlement_refl]. Qed.

Lemma keepsEntitlements_trans m1 m2 m3 :
  keepsEntitlements m1 m2 -> keepsEntitlements m2 m3 -> keepsEntitlements m1 m3.
Proof.
  intros H12 H23 key b H.
  destruct (H12 key b H) as (b2 & H2 & F12).
  destruct (H23 key b2 H2) as (b3 & H3 & F23).
  exists b3. split; [exact H3 | exact (sameEntitlement_trans _ _ _ F12 F23)].
Qed.

Lemma keepsEntitlements_write m key b b' :
  m !! key = Some b -> sameEntitlement b b' -> keepsEntitlements m (<[key := b']> m).
Proof.
  intros Hb F key0 b0 H0. rewrite lookup_insert. case_decide.
  - subst. rewrite Hb in H0. injection H0 as <-. eauto.
  - exists b0. split; [exact H0 | apply sameEntitlement_refl].
Qed.

Lemma keepsEntitlements_new m key b' :
  m !! key = None -> keepsEntitlements m (<[key := b']> m).
Proof.
  intros Hb key0 b0 H0. rewrite lookup_insert. case_decide.
  - subst. congruence.
  - exists b0. split; [exact H0 | apply sameEntitlement_refl].
Qed.

Lemma exec_keepsEntitlements (c : Call) (env : Env) (s : Store) :
  keepsEntitlements (leaveBalances s) (leaveBalances (exec c env s)).
Proof.
  change (post (call c) env s
            (fun _ s' => keepsEntitlements (leaveBalances s) (leaveBalances s'))).
  destruct c; post_run; simpl in *; try apply keepsEntitlements_refl.
  all: try (apply keepsEntitlements_new; assumption).
  all: eapply keepsEntitlements_write; [eassumption | apply sameEntitlement_write].
Qed.

Lemma run_keepsEntitlements (cs : list (Env * Call)) (s : Store) :
  keepsEntitlements (leaveBalances s) (leaveBalances (run cs s)).
Proof.
  revert s. induction cs as [|[env c] cs IH]; intros s; simpl.
  - apply keepsEntitlements_refl.
  - eapply keepsEntitlements_trans; [apply exec_keepsEntitlements | apply IH].
Qed.

(** X13. Whatever calls are made, a balance document is never deleted
    and its entitlements never change: the [total] of casual, sick and
    paid, the unpaid [used] counter and the carry-forward stay as they
    were; the services only ever assign [used] of the three counters
    (and the hook [remaining]). *)
Theorem entitlements_never_change (cs : list (Env * Call)) (s : Store)
    (key : ObjectId * Z) (b : LeaveBalance.t) :
  leaveBalances s !! key = Some b ->
  exists b',
    leaveBalances (run cs s) !! key = Some b'
    /\ (forall k, LeaveBalance.total (LeaveBalance.get k b')
                  = LeaveBalance.total (LeaveBalance.get k b))
    /\ LeaveBalance.unpaidUsed b' = LeaveBalance.unpaidUsed b
    /\ LeaveBalance.carryForward b' = LeaveBalance.carryForward b.
Proof. apply run_keepsEntitlements. Qed.

Lemma entitlements_never_change_witness :
  exists b',
    leaveBalances (run approveThenCancel applied3) !! ("u1"%string, 2026) = Some b'
    /\ (forall k, LeaveBalance.total (LeaveBalance.get k b')
                  = LeaveBalance.total (LeaveBalance.get k LeaveBalance.defaults))
    /\ LeaveBalance.unpaidUsed b' = LeaveBalance.unpaidUsed LeaveBalance.defaults
    /\ LeaveBalance.carryForward b' = LeaveBalance.carryForward LeaveBalance.defaults.
Proof.
  apply (entitlements_never_change approveThenCancel applied3 ("u1"%string, 2026)
           LeaveBalance.defaults).
  vm_compute. reflexivity.
Defined.

Lemma preSave_hooked (l l' : Leave.t) : Leave.preSave l = inr l' -> hooked l'.
Proof.
  unfold Leave.preSave. destruct (Z.ltb_spec (Leave.endDate l) (Leave.startDate l));
    [discriminate|].
  intros [= <-]. split; [exact H | reflexivity].
Qed.

Lemma keptOrHooked_refl m : keptOrHooked m m.
Proof. intros id l H. now left. Qed.

Lemma keptOrHooked_write m0 m id l :
  keptOrHooked m0 m -> hooked l -> keptOrHooked m0 (<[id := l]> m).
Proof.
  intros H Hl id' l'. rewrite lookup_insert. case_decide.
  - intros [= <-]. now right.
  - apply H.
Qed.

Lemma exec_keptOrHooked (c : Call) (env : Env) (m0 : gmap ObjectId Leave.t) (s : Store) :
  keptOrHooked m0 (leaves s) -> keptOrHooked m0 (leaves (exec c env s)).
Proof.
  intros H.
  change (post (call c) env s (fun _ s' => keptOrHooked m0 (leaves s'))).
  destruct c; post_run; simpl; try assumption.
  all: apply keptOrHooked_write; [assumption | eapply preSave_hooked; eassumption].
Qed.

Lemma run_keptOrHooked (cs : list (Env * Call)) (m0 : gmap ObjectId Leave.t) (s : Store) :
  keptOrHooked m0 (leaves s) -> keptOrHooked m0 (leaves (run cs s)).
Proof.
  revert s. induction cs as [|[env c] cs IH]; intros s H; simpl; [assumption|].
  apply IH, exec_keptOrHooked, H.
Qed.

(** X14. Every request a call writes has passed the hooks of its
    schema: after any sequence of calls, a stored request either is an
    untouched document of the initial store, or ends no earlier than it
    starts and carries the day count of its dates (0.5 for a half day,
    else the days from start to end, rounded up, plus one). *)
Theorem written_requests_are_hooked (cs : list (Env * Call)) (s : Store)
    (id : ObjectId) (l : Leave.t) :
  leaves (run cs s) !! id = Some l ->
  leaves s !! id = Some l
  \/ (Leave.startDate l <= Leave.endDate l
      /\ Leave.totalDays l
         = Leave.calcTotalDays (Leave.isHalfDay l) (Leave.startDate l) (Leave.endDate l)).
Proof. apply run_keptOrHooked, keptOrHooked_refl. Qed.

Lemma written_requests_are_hooked_witness :
  exists l,
    leaves approved3 !! "l1"%string = Some l
    /\ (leaves applied3 !! "l1"%string = Some l
        \/ (Leave.startDate l <= Leave.endDate l
            /\ Leave.totalDays l
               = Leave.calcTotalDays (Leave.isHalfDay l) (Leave.startDate l)
                   (Leave.endDate l))).
Proof.
  destruct (leaves approved3 !! "l1"%string) as [l|] eqn:Hl;
    [|vm_compute in Hl; discriminate].
  exists l. split; [reflexivity|].
  apply (written_requests_are_hooked [ (envAt 0 "-", ApproveLeave "l1" "boss" None) ]
           applied3 "l1" l).
  exact Hl.
Defined.

(** ** Balances on demand, day counts *)

(** X15. [getLeaveBalance] reads the balance of the given year (the
    current year when none, or 0, is given) and writes only when the
    document is missing: a stored document is returned as it is; a
    missing one is created with 12 casual, 10 sick and 15 paid days, all
    unused, after which the same call returns that document and changes
    nothing; for a year before 2020 the creation is refused by the
    schema and nothing is written. *)
Theorem getLeaveBalance_lazy (env : Env) (s : Store) (userId : ObjectId)
    (year : option Z) :
  let y := match year with
           | Some y => if y =? 0 then getFullYear env (now env) else y
           | None => getFullYear env (now env)
           end in
  let created := LeaveBalance.preSave LeaveBalance.defaults in
  let s' := set_leaveBalances (<[(userId, y) := created]> (leaveBalances s)) s in
  match leaveBalances s !! (userId, y) with
  | Some b => LeaveService.getLeaveBalance userId year env s = (inr b, s)
  | None =>
      if 2020 <=? y
      then LeaveService.getLeaveBalance userId year env s = (inr created, s')
           /\ LeaveService.getLeaveBalance userId year env s' = (inr created, s')
      else LeaveService.getLeaveBalance userId year env s = (inl ValidationError, s)
  end.
Proof.
  intros y created s'.
  unfold LeaveService.getLeaveBalance, balanceCreate, balanceSave,
    bind, ask, get, put, throwIf, throw, ret.
  fold y. destruct (leaveBalances s !! (userId, y)) as [b|] eqn:Hb.
  - reflexivity.
  - destruct (2020 <=? y) eqn:Hy.
    + split.
      * unfold LeaveBalance.validate. simpl. rewrite Hy. reflexivity.
      * subst s'. simpl. rewrite lookup_insert_eq. reflexivity.
    + unfold LeaveBalance.validate. simpl. rewrite Hy. reflexivity.
Qed.

Lemma ceilDiv_days (n r : Z) :
  0 <= r < msPerDay ->
  ceilDiv (n * msPerDay + r) msPerDay = n + (if r =? 0 then 0 else 1).
Proof.
  intros Hr. unfold ceilDiv.
  destruct (Z.eqb_spec r 0) as [-> | Hne].
  - replace (- (n * msPerDay + 0)) with ((- n) * msPerDay) by lia.
    rewrite Z.div_mul by discriminate. lia.
  - assert (E : - (n * msPerDay + r) / msPerDay = - n - 1).
    { symmetry. apply (Z.div_unique_pos _ _ _ (msPerDay - r)); lia. }
    rewrite E. lia.
Qed.

(** X16. The day count of a request that is not a half day: from a
    start to [n] whole days later it is [n + 1], the ends of the
    interval may be swapped, and any further part of a day, a
    millisecond included, counts as one full day more. *)
Theorem totalDays_counts_started_days (start n r : Z) :
  0 <= n -> 0 <= r < msPerDay ->
  Leave.calcTotalDays false start (start + n * msPerDay + r)
  = inject_Z (n + (if r =? 0 then 1 else 2))
  /\ Leave.calcTotalDays false (start + n * msPerDay + r) start
     = inject_Z (n + (if r =? 0 then 1 else 2)).
Proof.
  intros Hn Hr. unfold Leave.calcTotalDays.
  assert (Hpos : 0 <= n * msPerDay + r) by (assert (0 < msPerDay) by reflexivity; nia).
  replace (Z.abs (start + n * msPerDay + r - start)) with (n * msPerDay + r) by lia.
  replace (Z.abs (start - (start + n * msPerDay + r))) with (n * msPerDay + r) by lia.
  rewrite ceilDiv_days by exact Hr.
  destruct (r =? 0); split; f_equal; lia.
Qed.

Lemma totalDays_counts_started_days_witness :
  Leave.calcTotalDays false (day 1) (day 1 + 2 * msPerDay + 1) = inject_Z 4.
Proof.
  apply (totalDays_counts_started_days (day 1) 2 1); [lia | split; [lia | reflexivity]].
Defined.

(** ** Salary records *)

Lemma existingSalary_iff (s : Store) (userId : ObjectId) (month year : Z) :
  SalaryService.existingSalary userId month year s = true <->
  exists id x, salaries s !! id = Some x
    /\ Salary.userId x = userId /\ Salary.month x = month /\ Salary.year x = year.
Proof.
  unfold SalaryService.existingSalary, SalaryService.samePeriod.
  rewrite bool_decide_eq_true, map_Exists_lookup.
  split; intros (id & x & Hx & H); exists id, x; (split; [exact Hx|]).
  - rewrite !andb_true_iff, !Z.eqb_eq, String.eqb_eq in H. tauto.
  - rewrite !andb_true_iff, !Z.eqb_eq, String.eqb_eq. tauto.
Qed.


(** X18. A [createSalary] call that passes the checks, for a document
    the schema accepts and an identifier that is free, stores the record
    as pending with the amounts the hook computes from the structure
    (the optional components defaulting to 0), whatever amounts the
    caller passed, and writes the audit entry; nothing else changes. *)
Theorem createSalary_success (env : Env) (s : Store) (userId : ObjectId) (month year : Z)
    (structure : Salary.SalaryStructure) (grossSalary totalDeductions netSalary : Q)
    (workingDays presentDays leaveDays absentDays : Q) (isProrated : bool)
    (createdById : ObjectId) (creditDate : option Z) (remarks : option string) :
  let doc := Salary.mk userId month year (Salary.withDefaults structure)
               grossSalary totalDeductions netSalary Salary.pending creditDate None None
               None (if truthy remarks then remarks else None)
               workingDays presentDays leaveDays absentDays isProrated createdById
               None None in
  is_Some (users s !! userId) ->
  (forall id x, salaries s !! id = Some x ->
     ~ (Salary.userId x = userId /\ Salary.month x = month /\ Salary.year x = year)) ->
  (presentDays + absentDays <= workingDays)%Q ->
  Salary.validate doc = true ->
  salaries s !! newId env = None ->
  auditUp env = true ->
  SalaryService.createSalary userId month year structure grossSalary
    totalDeductions netSalary workingDays presentDays leaveDays absentDays
    isProrated createdById creditDate remarks env s
  = (inr (newId env, Salary.preSave doc),
     set_auditLogs
       (auditLogs s ++ [mkAudit userId createdById "SALARY_CREATED" "salary" (newId env)])
       (set_salaries (<[newId env := Salary.preSave doc]> (salaries s)) s))
  /\ Salary.status (Salary.preSave doc) = Salary.pending
  /\ Salary.grossSalary (Salary.preSave doc) = Salary.gross (Salary.withDefaults structure)
  /\ Salary.totalDeductions (Salary.preSave doc)
     = Salary.deductions (Salary.withDefaults structure).
Proof.
  intros doc Hu Hnone Hdays Hval Hid Haudit.
  split; [|repeat split].
  unfold SalaryService.createSalary, salaryCreate, auditCreate,
    bind, ask, get, put, throwIf, throw, ret.
  rewrite bool_decide_eq_true_2 by exact Hu. simpl.
  assert (E : SalaryService.existingSalary userId month year s = false).
  { destruct (SalaryService.existingSalary userId month year s) eqn:E; [|reflexivity].
    apply existingSalary_iff in E as (id & x & Hx & H). destruct (Hnone id x Hx H). }
  rewrite E. simpl.
  assert (D : Qlt_bool workingDays (presentDays + absentDays) = false).
  { unfold Qlt_bool. rewrite (proj2 (Qle_bool_iff _ _) Hdays). reflexivity. }
  rewrite D. simpl. fold doc. rewrite Hval. simpl. rewrite Hid, Haudit. reflexivity.
Qed.

Lemma createSalary_success_witness :
  exists x s',
    SalaryService.createSalary "u1" 3 2025 marchStructure 1 2 3 30 30 0 0 false "hr"
      None None (envAt 0 "s1") staff = (inr ("s1"%string, x), s')
    /\ Salary.status x = Salary.pending
    /\ (Salary.grossSalary x == 44000)%Q
    /\ (Salary.totalDeductions x == 3800)%Q.
Proof.
  destruct (createSalary_success (envAt 0 "s1") staff "u1" 3 2025 marchStructure 1 2 3
              30 30 0 0 false "hr" None None) as (H & Hst & Hg & Hd).
  - eexists. vm_compute. reflexivity.
  - intros id x Hx. simpl in Hx. rewrite lookup_empty in Hx. discriminate.
  - vm_compute. discriminate.
  - vm_compute. reflexivity.
  - vm_compute. reflexivity.
  - reflexivity.
  - eexists _, _. split; [exact H|]. split; [exact Hst|].
    rewrite Hg, Hd. split; vm_compute; reflexivity.
Defined.

Lemma uniquePeriods_update (m : gmap ObjectId Salary.t) (id : ObjectId) (x x' : Salary.t) :
  m !! id = Some x ->
  Salary.userId x' = Salary.userId x -> Salary.month x' = Salary.month x ->
  Salary.year x' = Salary.year x ->
  uniquePeriods m -> uniquePeriods (<[id := x']> m).
Proof.
  intros Hx U M Y H i j a b. rewrite !lookup_insert.
  repeat case_decide; subst; intros Ha Hb; simplify_eq; try reflexivity.
  - rewrite U, M, Y. intros. symmetry. eapply H; eauto; congruence.
  - rewrite U, M, Y. intros. eapply H; eauto.
  - apply H; assumption.
Qed.

Lemma uniquePeriods_insert (m : gmap ObjectId Salary.t) (id : ObjectId) (x' : Salary.t) :
  (forall j y, m !! j = Some y ->
     ~ (Salary.userId y = Salary.userId x' /\ Salary.month y = Salary.month x'
        /\ Salary.year y = Salary.year x')) ->
  uniquePeriods m -> uniquePeriods (<[id := x']> m).
Proof.
  intros Hnone H i j a b. rewrite !lookup_insert.
  repeat case_decide; subst; intros Ha Hb; simplify_eq; try reflexivity.
  - intros. exfalso. eapply Hnone; eauto.
  - intros. exfalso. eapply Hnone; eauto.
  - apply H; assumption.
Qed.

Lemma uniquePeriods_delete (m : gmap ObjectId Salary.t) (id : ObjectId) :
  uniquePeriods m -> uniquePeriods (delete id m).
Proof.
  intros H i j a b Ha Hb.
  apply lookup_delete_Some in Ha as [_ Ha], Hb as [_ Hb]. eapply H; eauto.
Qed.

Lemma exec_uniquePeriods (c : Call) (env : Env) (s : Store) :
  uniquePeriods (salaries s) -> uniquePeriods (salaries (exec c env s)).
Proof.
  intros H.
  change (post (call c) env s (fun _ s' => uniquePeriods (salaries s'))).
  destruct c; post_run; simpl; try assumption.
  all: try (apply uniquePeriods_delete; assumption).
  all: try (eapply uniquePeriods_update; [eassumption | reflexivity ..| assumption]).
  all: try (eapply uniquePeriods_update; [eassumption | | | | assumption];
            destruct (Salary.status_eqb _ _); reflexivity).
  all: apply uniquePeriods_insert; [|assumption]; simpl.
  all: intros j y Hy Hsame.
  all: match goal with
       | E : SalaryService.existingSalary _ _ _ _ = false |- _ =>
           assert (E' := proj2 (existingSalary_iff s userId month year));
           rewrite E in E'; discriminate E'; eauto
       end.
Qed.

Lemma run_uniquePeriods (cs : list (Env * Call)) (s : Store) :
  uniquePeriods (salaries s) -> uniquePeriods (salaries (run cs s)).
Proof.
  revert s. induction cs as [|[env c] cs IH]; intros s H; simpl; [assumption|].
  apply IH, exec_uniquePeriods, H.
Qed.

(** X19. One record per employee and period: if no two records of the
    store are for the same employee, month and year, no sequence of
    calls makes two such records; [createSalary] only inserts after its
    lookup found none, and no call changes the employee, month or year
    of a record. *)
Theorem one_record_per_period (cs : list (Env * Call)) (s : Store)
    (i j : ObjectId) (x y : Salary.t) :
  uniquePeriods (salaries s) ->
  salaries (run cs s) !! i = Some x ->
  salaries (run cs s) !! j = Some y ->
  Salary.userId x = Salary.userId y ->
  Salary.month x = Salary.month y ->
  Salary.year x = Salary.year y ->
  i = j.
Proof. intros H. apply (run_uniquePeriods cs s H). Qed.

Lemma one_record_per_period_witness :
  exists x,
    salaries (run createdTwice staff) !! "s1"%string = Some x
    /\ salaries (run createdTwice staff) !! "s2"%string = None
    /\ ("s1" : ObjectId) = "s1"%string.
Proof.
  destruct (salaries (run createdTwice staff) !! "s1"%string) as [x|] eqn:Hx;
    [|vm_compute in Hx; discriminate].
  exists x. split; [reflexivity|]. split; [vm_compute; reflexivity|].
  apply (one_record_per_period createdTwice staff "s1" "s1" x x).
  - intros i j a b Ha. simpl in Ha. rewrite lookup_empty in Ha. discriminate.
  - exact Hx.
  - exact Hx.
  - reflexivity.
  - reflexivity.
  - reflexivity.
Defined.



(** X21. [updateSalaryStatus] enforces no order on the statuses: on a
    record that satisfies its schema it sets any status from any status,
    out of paid included.  A paid record that is set back this way is
    no longer protected: [deleteSalary] then removes it. *)
Theorem paid_record_can_be_reopened (env1 env2 : Env) (s : Store)
    (salaryId by1 by2 : ObjectId) (st : Salary.Status) (x : Salary.t) :
  salaries s !! salaryId = Some x ->
  Salary.validate x = true ->
  auditUp env1 = true ->
  auditUp env2 = true ->
  exists y s1,
    SalaryService.updateSalaryStatus salaryId st by1 env1 s = (inr y, s1)
    /\ salaries s1 !! salaryId = Some y
    /\ Salary.status y = st
    /\ (st <> Salary.paid ->
        exists s2,
          SalaryService.deleteSalary salaryId by2 env2 s1
          = (inr "Salary record deleted successfully"%string, s2)
          /\ salaries s2 !! salaryId = None).
Proof.
  intros Hx Hval Ha1 Ha2.
  assert (D : forall s1 y,
             salaries s1 !! salaryId = Some y -> Salary.status y = st ->
             st <> Salary.paid ->
             exists s2,
               SalaryService.deleteSalary salaryId by2 env2 s1
               = (inr "Salary record deleted successfully"%string, s2)
               /\ salaries s2 !! salaryId = None).
  { intros s1 y Hy Hsty Hne.
    unfold SalaryService.deleteSalary, salaryDelete, auditCreate,
      bind, ask, get, put, throwIf, throw, ret.
    rewrite Hy, Hsty.
    replace (Salary.status_eqb st Salary.paid) with false
      by (destruct st; try reflexivity; congruence).
    simpl. rewrite Ha2. eexists. split; [reflexivity|]. simpl.
    apply lookup_delete_eq. }
  revert D.
  unfold SalaryService.updateSalaryStatus, salarySave, auditCreate,
    sendSalaryPaidEmail, bind, ask, get, put, throwIf, throw, ret.
  rewrite Hx.
  destruct st; simpl; intros D;
    match goal with
    | |- context [Salary.validate ?d] => change (Salary.validate d) with (Salary.validate x)
    end;
    rewrite Hval, Ha1; simpl.
  3: destruct (Salary.status_eqb (Salary.status x) Salary.paid); simpl.
  4: destruct (SalaryService.notifiable (users s !! Salary.userId x)); simpl.
  all: eexists _, _; (split; [reflexivity|]); simpl; rewrite lookup_insert_eq;
    (split; [reflexivity|]); (split; [reflexivity|]); intros Hne;
    (eapply D; [simpl; apply lookup_insert_eq | reflexivity | exact Hne]).
Qed.

Lemma paid_record_can_be_reopened_witness :
  exists y s1 s2,
    SalaryService.updateSalaryStatus "s1" Salary.pending "hr" (envAt 2 "-") paidOut
    = (inr y, s1)
    /\ Salary.status y = Salary.pending
    /\ SalaryService.deleteSalary "s1" "hr" (envAt 3 "-") s1
       = (inr "Salary record deleted successfully"%string, s2)
    /\ salaries s2 !! "s1"%string = None.
Proof.
  destruct (salaries paidOut !! "s1"%string) as [x|] eqn:Hx;
    [|vm_compute in Hx; discriminate].
  pose proof Hx as Ex. vm_compute in Ex. injection Ex as Ex.
  destruct (paid_record_can_be_reopened (envAt 2 "-") (envAt 3 "-") paidOut "s1" "hr" "hr"
              Salary.pending x)
    as (y & s1 & H1 & _ & H2 & H3).
  - exact Hx.
  - subst x. vm_compute. reflexivity.
  - reflexivity.
  - reflexivity.
  - destruct H3 as (s2 & H4 & H5); [discriminate|].
    exists y, s1, s2. auto.
Defined.

(** X22. [updateSalary] on a record that is not paid assigns the
    provided fields and then checks the days of the result: when present
    and absent days exceed the working days it throws a BadRequest error
    and nothing is stored.  Otherwise, the result satisfying the schema
    and the audit entry being written, the record is stored with its
    amounts recomputed; its employee, period, status, creator and
    payment data are never changed, and an update that provides no field
    stores the record with nothing but the amounts recomputed. *)
Theorem updateSalary_effect (env : Env) (s : Store) (salaryId updatedById : ObjectId)
    (updateData : SalaryService.UpdateData) (x : Salary.t) :
  salaries s !! salaryId = Some x ->
  Salary.status x <> Salary.paid ->
  let x' := updatedSalary updateData x in
  ((Salary.workingDays x' < Salary.presentDays x' + Salary.absentDays x')%Q ->
   SalaryService.updateSalary salaryId updateData updatedById env s
   = (inl BadRequestError, s))
  /\ ((Salary.presentDays x' + Salary.absentDays x' <= Salary.workingDays x')%Q ->
      Salary.validate x' = true ->
      auditUp env = true ->
      SalaryService.updateSalary salaryId updateData updatedById env s
      = (inr (Salary.preSave x'),
         set_auditLogs
           (auditLogs s
            ++ [mkAudit (Salary.userId x) updatedById "SALARY_UPDATED" "salary" salaryId])
           (set_salaries (<[salaryId := Salary.preSave x']> (salaries s)) s)))
  /\ Salary.userId (Salary.preSave x') = Salary.userId x
  /\ Salary.month (Salary.preSave x') = Salary.month x
  /\ Salary.year (Salary.preSave x') = Salary.year x
  /\ Salary.status (Salary.preSave x') = Salary.status x
  /\ Salary.createdBy (Salary.preSave x') = Salary.createdBy x
  /\ Salary.processedBy (Salary.preSave x') = Salary.processedBy x
  /\ Salary.paymentMethod (Salary.preSave x') = Salary.paymentMethod x
  /\ (updateData = noUpdate -> x' = x).
Proof.
  intros Hx Hst x'.
  assert (Hp : Salary.status_eqb (Salary.status x) Salary.paid = false)
    by (destruct (Salary.status x); try reflexivity; congruence).
  split; [|split; [|repeat split]].
  - intros Hdays. apply Qlt_bool_iff in Hdays.
    unfold SalaryService.updateSalary, bind, ask, get, put, throwIf, throw, ret.
    rewrite Hx, Hp. subst x'. unfold updatedSalary in Hdays. simpl in Hdays |- *.
    rewrite Hdays. reflexivity.
  - intros Hdays Hval Haudit.
    assert (D : Qlt_bool (Salary.workingDays x')
                  (Salary.presentDays x' + Salary.absentDays x') = false).
    { unfold Qlt_bool. rewrite (proj2 (Qle_bool_iff _ _) Hdays). reflexivity. }
    unfold SalaryService.updateSalary, salarySave, auditCreate,
      bind, ask, get, put, throwIf, throw, ret.
    rewrite Hx, Hp. subst x'. unfold updatedSalary in D, Hval |- *.
    simpl in D |- *. rewrite D. simpl. rewrite Hval. simpl. rewrite Haudit. reflexivity.
  - intros ->. subst x'. destruct x. reflexivity.
Qed.

Lemma updateSalary_effect_witness :
  SalaryService.updateSalary "s1"
    (SalaryService.mkUpdate None None (Some 31%Q) None None None None None) "hr"
    (envAt 1 "-") salaried
  = (inl BadRequestError, salaried).
Proof.
  destruct (salaries salaried !! "s1"%string) as [x|] eqn:Hx;
    [|vm_compute in Hx; discriminate].
  pose proof Hx as Ex. vm_compute in Ex. injection Ex as Ex.
  apply (updateSalary_effect (envAt 1 "-") salaried "s1" "hr"
           (SalaryService.mkUpdate None None (Some 31%Q) None None None None None) x Hx).
  - subst x. discriminate.
  - subst x. vm_compute. reflexivity.
Defined.

(** X23. [deleteSalary] on a record that is not paid removes it and
    writes the audit entry; every other record stays as it is, and the
    identifier is then unknown to the salary operations. *)
Theorem deleteSalary_success (env : Env) (s : Store) (salaryId deletedById : ObjectId)
    (x : Salary.t) :
  salaries s !! salaryId = Some x ->
  Salary.status x <> Salary.paid ->
  auditUp env = true ->
  let s' := set_auditLogs
              (auditLogs s
               ++ [mkAudit (Salary.userId x) deletedById "SALARY_DELETED" "salary" salaryId])
              (set_salaries (delete salaryId (salaries s)) s) in
  SalaryService.deleteSalary salaryId deletedById env s
  = (inr "Salary record deleted successfully"%string, s')
  /\ salaries s' !! salaryId = None
  /\ (forall id, id <> salaryId -> salaries s' !! id = salaries s !! id)
  /\ (forall env' by_, SalaryService.deleteSalary salaryId by_ env' s'
                       = (inl NotFoundError, s')).
Proof.
  intros Hx Hst Haudit s'.
  assert (Hp : Salary.status_eqb (Salary.status x) Salary.paid = false)
    by (destruct (Salary.status x); try reflexivity; congruence).
  assert (Hgone : salaries s' !! salaryId = None) by (simpl; apply lookup_delete_eq).
  repeat split.
  - unfold SalaryService.deleteSalary, salaryDelete, auditCreate,
      bind, ask, get, put, throwIf, throw, ret.
    rewrite Hx, Hp. simpl. rewrite Haudit. reflexivity.
  - exact Hgone.
  - intros id Hne. simpl. apply lookup_delete_ne. congruence.
  - intros env' by_.
    unfold SalaryService.deleteSalary, bind, get, throw. rewrite Hgone. reflexivity.
Qed.

Lemma deleteSalary_success_witness :
  exists s',
    SalaryService.deleteSalary "s1" "hr" (envAt 1 "-") salaried
    = (inr "Salary record deleted successfully"%string, s')
    /\ salaries s' !! "s1"%string = None
    /\ SalaryService.deleteSalary "s1" "hr" (envAt 2 "-") s' = (inl NotFoundError, s').
Proof.
  destruct (salaries salaried !! "s1"%string) as [x|] eqn:Hx;
    [|vm_compute in Hx; discriminate].
  pose proof Hx as Ex. vm_compute in Ex. injection Ex as Ex.
  destruct (deleteSalary_success (envAt 1 "-") salaried "s1" "hr" x)
    as (H1 & H2 & _ & H3).
  - exact Hx.
  - subst x. discriminate.
  - reflexivity.
  - eexists. split; [exact H1|]. split; [exact H2|]. apply H3.
Defined.


(** ** Amounts *)








(** ** Bulk generation *)

Lemma bulk_turn_inr (month year : Z) (by_ e id : ObjectId) (r : Bulk.Results)
    (env : Env) (s : Store) :
  exists r', fst (Bulk.turn month year by_ e id r env s) = inr r'
    /\ (Bulk.success r' ++ (Bulk.failed r').*1
        = (Bulk.success r ++ (Bulk.failed r).*1) ++ [e]
       \/ (Bulk.success r' = Bulk.success r ++ [e] /\ Bulk.failed r' = Bulk.failed r)).
Proof.
  unfold Bulk.turn.
  destruct (SalaryService.existingSalary e month year s).
  - eexists. split; [reflexivity|]. left. simpl.
    rewrite fmap_app, app_assoc. reflexivity.
  - destruct (SalaryService.createSalary _ _ _ _ _ _ _ _ _ _ _ _ _ _ _ _ _) as [[f|v] s'].
    + eexists. split; [reflexivity|]. left. simpl.
      rewrite fmap_app, app_assoc. reflexivity.
    + eexists. split; [reflexivity|]. right. split; reflexivity.
Qed.

Lemma bulk_loop_reports (month year : Z) (by_ : ObjectId)
    (employees : list (ObjectId * ObjectId)) (r : Bulk.Results) (env : Env) (s : Store) :
  exists r', fst (Bulk.loop month year by_ employees r env s) = inr r'
    /\ Bulk.success r' ++ (Bulk.failed r').*1
       ≡ₚ (Bulk.success r ++ (Bulk.failed r).*1) ++ employees.*1.
Proof.
  revert r s. induction employees as [|[e id] rest IH]; intros r s; simpl.
  - exists r. split; [reflexivity|]. rewrite app_nil_r. reflexivity.
  - destruct (bulk_turn_inr month year by_ e id r env s) as (r1 & H1 & P1).
    unfold bind. destruct (Bulk.turn month year by_ e id r env s) as [[f|r1'] s1];
      simpl in H1; [discriminate|]. injection H1 as ->.
    destruct (IH r1 s1) as (r' & H' & P'). exists r'. split; [exact H'|].
    rewrite P'. destruct P1 as [-> | [E1 E2]].
    + rewrite <- app_assoc. reflexivity.
    + rewrite E1, E2. rewrite <- !app_assoc. simpl.
      apply Permutation_app_head. rewrite Permutation_middle. reflexivity.
Qed.

(** X27. [generateBulkSalaries] fails only on an empty roster, with a
    NotFound error and no write.  On any other roster it returns its
    report whatever happens in the turns (a refused record, a refused
    audit entry), and the report accounts for every employee exactly
    once, under [success] or under [failed]. *)
Theorem generateBulkSalaries_reports_everyone (month year : Z) (createdById : ObjectId)
    (employees : list (ObjectId * ObjectId)) (env : Env) (s : Store) :
  (employees = [] ->
   Bulk.generateBulkSalaries month year createdById employees env s
   = (inl NotFoundError, s))
  /\ (employees <> [] ->
      exists r,
        fst (Bulk.generateBulkSalaries month year createdById employees env s) = inr r
        /\ Bulk.success r ++ (Bulk.failed r).*1 ≡ₚ employees.*1).
Proof.
  unfold Bulk.generateBulkSalaries, bind, throwIf, throw, ret. split.
  - intros ->. reflexivity.
  - intros Hne. rewrite bool_decide_eq_false_2 by exact Hne.
    destruct (bulk_loop_reports month year createdById employees
                (Bulk.mkResults [] []) env s) as (r & Hr & P).
    exists r. split; [exact Hr | exact P].
Qed.

Lemma existingSalary_mono (s s' : Store) (userId : ObjectId) (month year : Z) :
  salaries s ⊆ salaries s' ->
  SalaryService.existingSalary userId month year s = true ->
  SalaryService.existingSalary userId month year s' = true.
Proof.
  intros Hsub. rewrite !existingSalary_iff. intros (id & x & Hx & H).
  exists id, x. split; [|exact H]. eapply lookup_weaken; eassumption.
Qed.

Lemma createSalary_grows (userId : ObjectId) (month year : Z)
    (structure : Salary.SalaryStructure) (grossSalary totalDeductions netSalary : Q)
    (workingDays presentDays leaveDays absentDays : Q) (isProrated : bool)
    (createdById : ObjectId) (creditDate : option Z) (remarks : option string)
    (env : Env) (s : Store) :
  post (SalaryService.createSalary userId month year structure grossSalary
          totalDeductions netSalary workingDays presentDays leaveDays absentDays
          isProrated createdById creditDate remarks) env s
    (fun r s' =>
       salaries s ⊆ salaries s'
       /\ (uniquePeriods (salaries s) -> uniquePeriods (salaries s'))
       /\ (forall v, r = inr v ->
             SalaryService.existingSalary userId month year s' = true)).
Proof.
  post_run; simpl.
  all: repeat split; try reflexivity; try (intros; assumption); try discriminate.
  all: try (apply insert_subseteq; assumption).
  all: try (intros U; apply uniquePeriods_insert; [|exact U]; simpl;
            intros j y Hy Hsame;
            match goal with
            | E : SalaryService.existingSalary _ _ _ _ = false |- _ =>
                assert (E' := proj2 (existingSalary_iff s userId month year));
                rewrite E in E'; discriminate E'; eauto
            end).
  all: intros v _; apply existingSalary_iff; eexists _, _;
    (split; [apply lookup_insert_eq | simpl; auto]).
Qed.

(** What a report claims about the store: the employees it lists under
    [success], or as failed because their record already existed, have a
    record for the period. *)
Lemma bulk_turn_sound (month year : Z) (by_ e id : ObjectId) (r : Bulk.Results)
    (env : Env) (s : Store) :
  (forall e', e' ∈ Bulk.success r \/ (e', Bulk.SalaryAlreadyExists) ∈ Bulk.failed r ->
     SalaryService.existingSalary e' month year s = true) ->
  exists r' s', Bulk.turn month year by_ e id r env s = (inr r', s')
    /\ salaries s ⊆ salaries s'
    /\ (uniquePeriods (salaries s) -> uniquePeriods (salaries s'))
    /\ (forall e', e' ∈ Bulk.success r' \/ (e', Bulk.SalaryAlreadyExists) ∈ Bulk.failed r' ->
          SalaryService.existingSalary e' month year s' = true).
Proof.
  intros Inv. unfold Bulk.turn.
  destruct (SalaryService.existingSalary e month year s) eqn:E.
  - eexists _, _. split; [reflexivity|]. split; [reflexivity|]. split; [auto|].
    simpl. intros e' [H | H]; [auto|].
    apply elem_of_app in H as [H | H]; [auto|].
    apply list_elem_of_singleton in H. injection H as ->. exact E.
  - pose proof (createSalary_grows e month year Bulk.defaultStructure
                  (Salary.gross Bulk.defaultStructure)
                  (Salary.deductions Bulk.defaultStructure)
                  (Salary.gross Bulk.defaultStructure
                   - Salary.deductions Bulk.defaultStructure)%Q
                  30 30 0 0 false by_ None None (Bulk.minting id env) s) as P.
    unfold post in P. cbv zeta.
    destruct (SalaryService.createSalary _ _ _ _ _ _ _ _ _ _ _ _ _ _ _ _ _) as [[f|v] s'].
    + simpl in P. destruct P as (Hsub & Huniq & _).
      eexists _, _. split; [reflexivity|]. split; [exact Hsub|]. split; [exact Huniq|].
      simpl. intros e' [H | H].
      * eapply existingSalary_mono; [exact Hsub | auto].
      * apply elem_of_app in H as [H | H].
        -- eapply existingSalary_mono; [exact Hsub | auto].
        -- apply list_elem_of_singleton in H. discriminate H.
    + simpl in P. destruct P as (Hsub & Huniq & Hnew).
      eexists _, _. split; [reflexivity|]. split; [exact Hsub|]. split; [exact Huniq|].
      simpl. intros e' [H | H].
      * apply elem_of_app in H as [H | H].
        -- eapply existingSalary_mono; [exact Hsub | auto].
        -- apply list_elem_of_singleton in H. subst e'. eapply Hnew. reflexivity.
      * eapply existingSalary_mono; [exact Hsub | auto].
Qed.

Lemma bulk_loop_sound (month year : Z) (by_ : ObjectId)
    (employees : list (ObjectId * ObjectId)) (r : Bulk.Results) (env : Env) (s : Store) :
  (forall e', e' ∈ Bulk.success r \/ (e', Bulk.SalaryAlreadyExists) ∈ Bulk.failed r ->
     SalaryService.existingSalary e' month year s = true) ->
  exists r' s', Bulk.loop month year by_ employees r env s = (inr r', s')
    /\ salaries s ⊆ salaries s'
    /\ (uniquePeriods (salaries s) -> uniquePeriods (salaries s'))
    /\ (forall e', e' ∈ Bulk.success r' \/ (e', Bulk.SalaryAlreadyExists) ∈ Bulk.failed r' ->
          SalaryService.existingSalary e' month year s' = true).
Proof.
  revert r s. induction employees as [|[e id] rest IH]; intros r s Inv; simpl.
  - exists r, s. split; [reflexivity|]. split; [reflexivity|]. split; auto.
  - destruct (bulk_turn_sound month year by_ e id r env s Inv)
      as (r1 & s1 & H1 & Sub1 & U1 & Inv1).
    unfold bind. rewrite H1.
    destruct (IH r1 s1 Inv1) as (r' & s' & H' & Sub' & U' & Inv').
    exists r', s'. split; [exact H'|]. split; [etransitivity; eassumption|].
    split; [auto | exact Inv'].
Qed.

(** X28. What a report of [generateBulkSalaries] says holds of the store
    it leaves: every employee listed under [success], and every employee
    listed as failed because the salary already exists, has a record for
    the month and year of the run; and the run removes or changes no
    record that was there. *)
Theorem generateBulkSalaries_report_sound (month year : Z) (createdById : ObjectId)
    (employees : list (ObjectId * ObjectId)) (env : Env) (s s' : Store)
    (r : Bulk.Results) :
  Bulk.generateBulkSalaries month year createdById employees env s = (inr r, s') ->
  salaries s ⊆ salaries s'
  /\ forall e, e ∈ Bulk.success r \/ (e, Bulk.SalaryAlreadyExists) ∈ Bulk.failed r ->
       exists id x, salaries s' !! id = Some x /\ Salary.userId x = e
                    /\ Salary.month x = month /\ Salary.year x = year.
Proof.
  unfold Bulk.generateBulkSalaries, bind, throwIf, throw, ret.
  destruct (bool_decide (employees = [])); [discriminate|].
  destruct (bulk_loop_sound month year createdById employees (Bulk.mkResults [] []) env s)
    as (r' & s'' & H' & Sub & _ & Inv).
  { simpl. intros e' [H | H]; inversion H. }
  rewrite H'. intros [= <- <-]. split; [exact Sub|].
  intros e H. apply existingSalary_iff, Inv, H.
Qed.

Lemma generateBulkSalaries_report_sound_witness :
  exists id x,
    salaries (snd (Bulk.generateBulkSalaries 3 2025 "hr" roster (envAt 0 "-") team))
      !! id = Some x
    /\ Salary.userId x = "u2"%string /\ Salary.month x = 3 /\ Salary.year x = 2025.
Proof.
  destruct (Bulk.generateBulkSalaries 3 2025 "hr" roster (envAt 0 "-") team)
    as [[f|r] s'] eqn:H; [vm_compute in H; discriminate|].
  destruct (generateBulkSalaries_report_sound 3 2025 "hr" roster (envAt 0 "-") team s' r H)
    as [_ Hrec].
  apply (Hrec "u2"%string). left.
  vm_compute in H. injection H as <- _. repeat constructor.
Defined.

(** X29. A bulk run keeps the salary collection at one record per
    employee and period, whatever the roster and whatever identifiers
    the driver mints. *)
Theorem generateBulkSalaries_one_record_per_period (month year : Z)
    (createdById : ObjectId) (employees : list (ObjectId * ObjectId))
    (env : Env) (s : Store) :
  uniquePeriods (salaries s) ->
  uniquePeriods
    (salaries (snd (Bulk.generateBulkSalaries month year createdById employees env s))).
Proof.
  intros U. unfold Bulk.generateBulkSalaries, bind, throwIf, throw, ret.
  destruct (bool_decide (employees = [])); [exact U|].
  destruct (bulk_loop_sound month year createdById employees (Bulk.mkResults [] []) env s)
    as (r' & s'' & H' & _ & U' & _).
  { simpl. intros e' [H | H]; inversion H. }
  rewrite H'. simpl. auto.
Qed.

Lemma generateBulkSalaries_one_record_per_period_witness :
  uniquePeriods
    (salaries (snd (Bulk.generateBulkSalaries 3 2025 "hr" roster (envAt 0 "-") team))).
Proof.
  apply (generateBulkSalaries_one_record_per_period 3 2025 "hr" roster (envAt 0 "-") team).
  intros i j a b Ha. simpl in Ha. rewrite lookup_empty in Ha. discriminate.
Defined.

Lemma bulk_loop_rerun (month year : Z) (by_ : ObjectId)
    (employees : list (ObjectId * ObjectId)) (r : Bulk.Results) (env : Env) (s : Store) :
  (forall e, e ∈ employees.*1 -> SalaryService.existingSalary e month year s = true) ->
  Bulk.loop month year by_ employees r env s
  = (inr (Bulk.mkResults (Bulk.success r)
            (Bulk.failed r
             ++ ((fun e => (e, Bulk.SalaryAlreadyExists)) <$> employees.*1))), s).
Proof.
  revert r. induction employees as [|[e id] rest IH]; intros r H; simpl.
  - rewrite app_nil_r. destruct r; reflexivity.
  - unfold bind, Bulk.turn. rewrite (H e) by (simpl; left).
    rewrite IH by (intros e' He'; apply H; simpl; right; exact He').
    simpl. rewrite <- app_assoc. reflexivity.
Qed.

(** X30. A bulk run over a roster whose employees all have a record for
    the period writes nothing, no record and no audit entry, and lists
    every employee as failed because the salary already exists. *)
Theorem generateBulkSalaries_rerun (month year : Z) (createdById : ObjectId)
    (employees : list (ObjectId * ObjectId)) (env : Env) (s : Store) :
  employees <> [] ->
  (forall e, e ∈ employees.*1 ->
     exists id x, salaries s !! id = Some x /\ Salary.userId x = e
                  /\ Salary.month x = month /\ Salary.year x = year) ->
  Bulk.generateBulkSalaries month year createdById employees env s
  = (inr (Bulk.mkResults []
            ((fun e => (e, Bulk.SalaryAlreadyExists)) <$> employees.*1)), s).
Proof.
  intros Hne H. unfold Bulk.generateBulkSalaries, bind, throwIf, throw, ret.
  rewrite bool_decide_eq_false_2 by exact Hne.
  rewrite bulk_loop_rerun; [reflexivity|].
  intros e He. apply existingSalary_iff, H, He.
Qed.

Lemma generateBulkSalaries_rerun_witness :
  Bulk.generateBulkSalaries 3 2025 "hr" [ ("u1"%string, "s9"%string) ] (envAt 1 "-")
    salaried
  = (inr (Bulk.mkResults [] [ ("u1"%string, Bulk.SalaryAlreadyExists) ]), salaried).
Proof.
  destruct (salaries salaried !! "s1"%string) as [x|] eqn:Hx;
    [|vm_compute in Hx; discriminate].
  pose proof Hx as Ex. vm_compute in Ex. injection Ex as Ex.
  apply (generateBulkSalaries_rerun 3 2025 "hr" [ ("u1"%string, "s9"%string) ]
           (envAt 1 "-") salaried).
  - discriminate.
  - intros e He. apply list_elem_of_singleton in He. subst e.
    exists "s1"%string, x. split; [exact Hx|]. subst x. repeat split.
Defined.
